(** * Slack relay: the [/claude] command handler and the Slack channel

    A shallow embedding of [start-slack-webhook.js] (the Bolt handler of
    the [/claude] slash command) and of the [SlackChannel] class that
    creates, persists and removes session records.

    - JavaScript strings are sequences of UTF-16 code units ([list N]);
    - [String.prototype.trim], [substring], [charAt] and the two regular
      expressions are modelled on code units; a regular expression is a
      value of [regex] and is run by Brzozowski derivatives;
    - numbers produced by [Math.random] are IEEE-754 binary64 values
      ([spec_float] with [prec = 53], [emax = 1024]), multiplied with the
      Standard Library's [SFmul];
    - everything the code reads from its environment (random numbers, the
      clock, uuids, tmux, the Slack API) comes from tapes held in the
      [World]; so do the answers of [TmuxMonitor] and [CommandRelay],
      two classes whose code is not part of these sources;
    - the session directory is a finite map from file paths to session
      objects; the file system itself does not fail, except that
      [unlinkSync] throws when the file is missing;
    - a computation is a function from the world to a completion (a
      value or a thrown error) and a new world; [await] of a promise is
      the call itself, a rejection is a throw; the callbacks [ack] and
      [say] of Bolt are taken to resolve, and a logged [Error] is
      recorded by its message. *)

From Stdlib Require Import ZArith NArith List Bool Lia Ascii String.
From Stdlib Require Import SpecFloat.
From stdpp Require Import base option list gmap.

Local Open Scope N_scope.

(** ** JavaScript strings *)

Module JSString.

(** A string is its sequence of UTF-16 code units. *)
Abbreviation jsstring := (list N).

(** An ASCII literal as a JavaScript string. *)
Definition str (s : string) : jsstring :=
  List.map N_of_ascii (list_ascii_of_string s).

(** ECMAScript [WhiteSpace]: TAB, VT, FF, SP, NBSP, ZWNBSP and the
    code points of category Zs. *)
Definition isWhiteSpace (c : N) : bool :=
  (c =? 9) || (c =? 11) || (c =? 12) || (c =? 32) || (c =? 160)
  || (c =? 5760) || ((8192 <=? c) && (c <=? 8202))
  || (c =? 8239) || (c =? 8287) || (c =? 12288) || (c =? 65279).

(** ECMAScript [LineTerminator]: LF, CR, LS, PS. *)
Definition isLineTerminator (c : N) : bool :=
  (c =? 10) || (c =? 13) || (c =? 8232) || (c =? 8233).

(** The characters removed by [trim] and matched by the escape [\s]:
    both are defined as WhiteSpace or LineTerminator. *)
Definition isTrimmable (c : N) : bool :=
  isWhiteSpace c || isLineTerminator c.

Fixpoint trimStart (s : jsstring) : jsstring :=
  match s with
  | c :: rest => if isTrimmable c then trimStart rest else s
  | [] => []
  end.

Definition trimEnd (s : jsstring) : jsstring :=
  rev (trimStart (rev s)).

(** [String.prototype.trim] *)
Definition trim (s : jsstring) : jsstring :=
  trimEnd (trimStart s).

(** [s.substring(from)] for a non-negative [from]. *)
Definition substring_from (s : jsstring) (from : nat) : jsstring :=
  skipn from s.

(** [s.substring(0, to)] *)
Definition substring_to (s : jsstring) (to : nat) : jsstring :=
  firstn to s.

(** A string is truthy exactly when it is not empty. *)
Definition truthy (s : jsstring) : bool :=
  match s with [] => false | _ => true end.

End JSString.
Import JSString.

(** ** Regular expressions *)

Module Regex.

Inductive regex : Type :=
| Void : regex
| Eps : regex
| Class : (N -> bool) -> regex
| Cat : regex -> regex -> regex
| Alt : regex -> regex -> regex
| Star : regex -> regex.

(** [r+] and [r{n}] *)
Definition Plus (r : regex) : regex := Cat r (Star r).

Fixpoint Times (n : nat) (r : regex) : regex :=
  match n with
  | O => Eps
  | S k => Cat r (Times k r)
  end.

Fixpoint nullable (r : regex) : bool :=
  match r with
  | Void => false
  | Eps => true
  | Class _ => false
  | Cat a b => nullable a && nullable b
  | Alt a b => nullable a || nullable b
  | Star _ => true
  end.

Fixpoint deriv (c : N) (r : regex) : regex :=
  match r with
  | Void => Void
  | Eps => Void
  | Class p => if p c then Eps else Void
  | Cat a b =>
      if nullable a then Alt (Cat (deriv c a) b) (deriv c b)
      else Cat (deriv c a) b
  | Alt a b => Alt (deriv c a) (deriv c b)
  | Star a => Cat (deriv c a) (Star a)
  end.

(** The whole of [s] is matched by [r]. *)
Fixpoint accepts (r : regex) (s : jsstring) : bool :=
  match s with
  | [] => nullable r
  | c :: rest => accepts (deriv c r) rest
  end.

(** A pattern anchored at the start only ([/^r/]): [r] matches the
    input from position 0 up to some position. *)
Fixpoint accepts_prefix (r : regex) (s : jsstring) : bool :=
  nullable r ||
  match s with
  | [] => false
  | c :: rest => accepts_prefix (deriv c r) rest
  end.

(** The language of a regular expression. *)
Inductive lang : regex -> jsstring -> Prop :=
| lang_eps : lang Eps []
| lang_class p c : p c = true -> lang (Class p) [c]
| lang_cat a b s t : lang a s -> lang b t -> lang (Cat a b) (s ++ t)
| lang_alt_l a b s : lang a s -> lang (Alt a b) s
| lang_alt_r a b s : lang b s -> lang (Alt a b) s
| lang_star_nil a : lang (Star a) []
| lang_star_cons a c s t :
    lang a (c :: s) -> lang (Star a) t -> lang (Star a) (c :: s ++ t).

(** [/^([A-Z0-9]{8})\s/]: with one capture group [g] followed by [r],
    the captured text is the part of the input matched by [g].  The
    search tries the split positions from the left. *)
Fixpoint capture_from (g r : regex) (taken rest : jsstring)
  : option jsstring :=
  if accepts g taken && accepts_prefix r rest then Some taken
  else
    match rest with
    | c :: rest' => capture_from g r (taken ++ [c]) rest'
    | [] => None
    end.

Definition capture_prefix (g r : regex) (s : jsstring) : option jsstring :=
  capture_from g r [] s.

End Regex.
Import Regex.

(** ** Numbers: IEEE-754 binary64 *)

Module Float64.

Local Open Scope Z_scope.

Definition prec : Z := 53.
Definition emax : Z := 1024.

Abbreviation number := spec_float.

(** The Number with integer value [z] (exact below [2^53]). *)
Definition Number_of_Z (z : Z) : number :=
  binary_normalize prec emax z 0 false.

(** The operator [*] on Numbers. *)
Definition mul (x y : number) : number := SFmul prec emax x y.

(** [Math.floor] *)
Definition Math_floor (x : number) : number :=
  match x with
  | S754_finite s m e =>
      if 0 <=? e then x
      else
        let d := 2 ^ (- e) in
        binary_normalize prec emax
          (if s then - ((Zpos m + d - 1) / d) else Zpos m / d) 0 s
  | _ => x
  end.

(** The abstract operation [ToIntegerOrInfinity]: truncation towards
    zero; [NaN] becomes 0; [None] stands for an infinity. *)
Definition ToIntegerOrInfinity (x : number) : option Z :=
  match x with
  | S754_nan => Some 0
  | S754_zero _ => Some 0
  | S754_infinity _ => None
  | S754_finite s m e =>
      let a := if 0 <=? e then Zpos m * 2 ^ e else Zpos m / 2 ^ (- e) in
      Some (if s then - a else a)
  end.

(** A value that [Math.random] may return: a binary64 number [d] with
    [0 <= d < 1]. *)
Definition unit_interval (d : number) : bool :=
  valid_binary prec emax d
  && SFleb (S754_zero false) d
  && SFltb d (Number_of_Z 1).

(** [s.charAt(pos)]: the one-unit string at the position, or the empty
    string when the position is out of range. *)
Definition charAt (s : jsstring) (pos : number) : jsstring :=
  match ToIntegerOrInfinity pos with
  | Some i =>
      if (i <? 0) || (Z.of_nat (length s) <=? i) then []
      else match nth_error s (Z.to_nat i) with
           | Some c => [c]
           | None => []
           end
  | None => []
  end.

(** What [k] halvings of the rounding loop leave of a mantissa [m0]:
    the quotient, and whether the discarded part reaches one half. *)
Record shifted (m0 : Z) (k : nat) (st : shr_record) : Prop := {
  sh_nonneg : 0 <= shr_m st;
  sh_lower : shr_m st * 2 ^ Z.of_nat k <= m0;
  sh_upper : m0 < (shr_m st + 1) * 2 ^ Z.of_nat k;
  sh_round : shr_r st = true ->
             (0 < k)%nat
             /\ shr_m st * 2 ^ Z.of_nat k + 2 ^ (Z.of_nat k - 1) <= m0;
  sh_exact : k = 0%nat -> shr_r st = false /\ shr_s st = false
}.

(** The value [binary_round_aux] builds from a rounded mantissa. *)
Definition round_result (m e : Z) : number :=
  match m with
  | 0 => S754_zero false
  | Zpos p =>
      if e <=? emax - prec then S754_finite false p e
      else S754_infinity false
  | Zneg _ => S754_nan
  end.

End Float64.
Import Float64.

(** ** Data model *)

(** [notification.metadata] *)
Record Metadata : Type := {
  userQuestion : option jsstring;
  claudeResponse : option jsstring;
  metadata_tmuxSession : option jsstring
}.

(** The notification object handed to the channel:
    [{type, project, message, metadata?}]. *)
Record Notification : Type := {
  notification_type : jsstring;
  notification_project : jsstring;
  message : jsstring;
  metadata : option Metadata
}.

(** The session object written by [_createSession].  [created] and
    [expires] hold the instant (milliseconds since the epoch) that
    [toISOString()] renders. *)
Record Session : Type := {
  id : jsstring;
  token : jsstring;
  type : jsstring;
  created : Z;
  expires : Z;
  tmuxSession : jsstring;
  project : jsstring;
  notification : Notification
}.

(** [this.config] and [this.sessionsDir] of a [SlackChannel]. *)
Record SlackChannel : Type := {
  botToken : option jsstring;
  channelId : option jsstring;
  sessionsDir : jsstring
}.

(** A thrown [Error] with its [message]. *)
Record Error : Type := { error_message : jsstring }.

(** [execSync('tmux display-message -p "#S"', ...)]: the captured
    standard output, or an exception (tmux missing, no server, non-zero
    exit status). *)
Inductive ExecResult : Type :=
| ExecStdout (out : jsstring)
| ExecFails (e : Error).

(** What [tmuxMonitor.getRecentConversation(tmuxSession)] returns. *)
Record Conversation : Type := {
  conversation_userQuestion : option jsstring;
  conversation_claudeResponse : option jsstring
}.

(** [client.chat.postMessage(...)]: resolved, or rejected with an error. *)
Inductive PostResult : Type :=
| PostResolved
| PostRejected (e : Error).

(** The object [commandRelay.relayCommand] resolves to:
    [{success, session?, message?}]. *)
Record RelayResult : Type := {
  success : bool;
  result_session : option Session;
  result_message : option jsstring
}.

Inductive RelayOutcome : Type :=
| RelayResolved (r : RelayResult)
| RelayRejected (e : Error).

Inductive LogLevel : Type := LogDebug | LogInfo | LogWarn | LogError.

(** What the Bolt handler did with its [ack] and [say] callbacks. *)
Inductive BoltCall : Type :=
| Ack
| Say (text : jsstring).

(** ** The world *)

(** Answers of the environment, one per call, in call order. *)
Record Tape (A : Type) : Type := {
  tape_at : nat -> A;
  tape_pos : nat
}.
Arguments tape_at {A} _ _.
Arguments tape_pos {A} _.

Definition tape_next {A} (t : Tape A) : A := tape_at t (tape_pos t).

Definition tape_advance {A} (t : Tape A) : Tape A :=
  {| tape_at := tape_at t; tape_pos := S (tape_pos t) |}.

(** What the process reads from outside. *)
Record Ambient : Type := {
  random : Tape number;            (* Math.random() *)
  clock : Tape Z;                  (* new Date() and Date.now() *)
  uuid : Tape jsstring;            (* uuidv4() *)
  tmux : Tape ExecResult;          (* execSync('tmux display-message ...') *)
  monitor : Tape Conversation;     (* TmuxMonitor.getRecentConversation *)
  slack : Tape PostResult;         (* client.chat.postMessage *)
  relay : Tape RelayOutcome        (* CommandRelay.relayCommand *)
}.

(** What the process has done to the outside, oldest first. *)
Record Effects : Type := {
  logged : list (LogLevel * list jsstring);
  posted : list (option jsstring * jsstring);
  bolt : list BoltCall;
  relayed : list (jsstring * jsstring)
}.

Record World : Type := {
  files : gmap (list N) Session;   (* the files of the session directory *)
  effects : Effects;
  ambient : Ambient
}.

Definition with_files (f : gmap (list N) Session) (w : World) : World :=
  {| files := f; effects := effects w; ambient := ambient w |}.

Definition with_effects (e : Effects) (w : World) : World :=
  {| files := files w; effects := e; ambient := ambient w |}.

Definition with_ambient (a : Ambient) (w : World) : World :=
  {| files := files w; effects := effects w; ambient := a |}.

Definition log_entry (l : LogLevel) (args : list jsstring) (e : Effects)
  : Effects :=
  {| logged := logged e ++ [(l, args)]; posted := posted e;
     bolt := bolt e; relayed := relayed e |}.

Definition post_entry (channel : option jsstring) (text : jsstring)
  (e : Effects) : Effects :=
  {| logged := logged e; posted := posted e ++ [(channel, text)];
     bolt := bolt e; relayed := relayed e |}.

Definition bolt_entry (c : BoltCall) (e : Effects) : Effects :=
  {| logged := logged e; posted := posted e;
     bolt := bolt e ++ [c]; relayed := relayed e |}.

Definition relay_entry (tok command : jsstring) (e : Effects) : Effects :=
  {| logged := logged e; posted := posted e;
     bolt := bolt e; relayed := relayed e ++ [(tok, command)] |}.

Definition advance_random (a : Ambient) : Ambient :=
  {| random := tape_advance (random a); clock := clock a; uuid := uuid a;
     tmux := tmux a; monitor := monitor a; slack := slack a;
     relay := relay a |}.

Definition advance_clock (a : Ambient) : Ambient :=
  {| random := random a; clock := tape_advance (clock a); uuid := uuid a;
     tmux := tmux a; monitor := monitor a; slack := slack a;
     relay := relay a |}.

Definition advance_uuid (a : Ambient) : Ambient :=
  {| random := random a; clock := clock a; uuid := tape_advance (uuid a);
     tmux := tmux a; monitor := monitor a; slack := slack a;
     relay := relay a |}.

Definition advance_tmux (a : Ambient) : Ambient :=
  {| random := random a; clock := clock a; uuid := uuid a;
     tmux := tape_advance (tmux a); monitor := monitor a; slack := slack a;
     relay := relay a |}.

Definition advance_monitor (a : Ambient) : Ambient :=
  {| random := random a; clock := clock a; uuid := uuid a;
     tmux := tmux a; monitor := tape_advance (monitor a); slack := slack a;
     relay := relay a |}.

Definition advance_slack (a : Ambient) : Ambient :=
  {| random := random a; clock := clock a; uuid := uuid a;
     tmux := tmux a; monitor := monitor a; slack := tape_advance (slack a);
     relay := relay a |}.

Definition advance_relay (a : Ambient) : Ambient :=
  {| random := random a; clock := clock a; uuid := uuid a;
     tmux := tmux a; monitor := monitor a; slack := slack a;
     relay := tape_advance (relay a) |}.

(** ** Computations: state and exceptions *)

Inductive Completion (A : Type) : Type :=
| Normal (a : A)
| Throw (e : Error).
Arguments Normal {A} a.
Arguments Throw {A} e.

Definition JS (A : Type) : Type := World -> Completion A * World.

#[global] Instance JS_ret : MRet JS := fun A a w => (Normal a, w).

#[global] Instance JS_bind : MBind JS := fun A B k c w =>
  match c w with
  | (Normal a, w') => k a w'
  | (Throw e, w') => (Throw e, w')
  end.

Definition throw {A} (e : Error) : JS A := fun w => (Throw e, w).

(** [try { body } catch (error) { handler }] *)
Definition try_catch {A} (body : JS A) (handler : Error -> JS A) : JS A :=
  fun w =>
    match body w with
    | (Normal a, w') => (Normal a, w')
    | (Throw e, w') => handler e w'
    end.

(** [for (let i = 0; i < n; i++) acc = body(acc)] *)
Fixpoint for_loop {A} (n : nat) (body : A -> JS A) (acc : A) : JS A :=
  match n with
  | O => mret acc
  | S k => acc' ← body acc; for_loop k body acc'
  end.

(** ** Primitives of the runtime and of the libraries *)

Definition Math_random : JS number := fun w =>
  (Normal (tape_next (random (ambient w))),
   with_ambient (advance_random (ambient w)) w).

(** One reading of the system clock, in milliseconds since the epoch;
    both [new Date()] and [Date.now()] take one. *)
Definition Date_now : JS Z := fun w =>
  (Normal (tape_next (clock (ambient w))),
   with_ambient (advance_clock (ambient w)) w).

Definition uuidv4 : JS jsstring := fun w =>
  (Normal (tape_next (uuid (ambient w))),
   with_ambient (advance_uuid (ambient w)) w).

Definition execSync_tmux_display_message : JS jsstring := fun w =>
  let w' := with_ambient (advance_tmux (ambient w)) w in
  match tape_next (tmux (ambient w)) with
  | ExecStdout out => (Normal out, w')
  | ExecFails e => (Throw e, w')
  end.

(** [new TmuxMonitor().getRecentConversation(tmuxSession)]: the class is
    not part of these sources, its answer is read from the environment. *)
Definition getRecentConversation (tmuxSession : jsstring) : JS Conversation :=
  fun w =>
    (Normal (tape_next (monitor (ambient w))),
     with_ambient (advance_monitor (ambient w)) w).

Definition chat_postMessage (channel : option jsstring) (text : jsstring)
  : JS unit := fun w =>
  let w' := with_ambient (advance_slack (ambient w)) w in
  match tape_next (slack (ambient w)) with
  | PostResolved =>
      (Normal tt, with_effects (post_entry channel text (effects w')) w')
  | PostRejected e => (Throw e, w')
  end.

(** [new CommandRelay().relayCommand(token, command)]: the class is not
    part of these sources; the call is recorded and its answer is read
    from the environment. *)
Definition relayCommand (tok command : jsstring) : JS RelayResult := fun w =>
  let w' := with_effects (relay_entry tok command (effects w))
              (with_ambient (advance_relay (ambient w)) w) in
  match tape_next (relay (ambient w)) with
  | RelayResolved r => (Normal r, w')
  | RelayRejected e => (Throw e, w')
  end.

(** [this.logger.debug/info/warn/error(...)] and [console.error(...)] *)
Definition logger (l : LogLevel) (args : list jsstring) : JS unit := fun w =>
  (Normal tt, with_effects (log_entry l args (effects w)) w).

Definition ack : JS unit := fun w =>
  (Normal tt, with_effects (bolt_entry Ack (effects w)) w).

Definition say (text : jsstring) : JS unit := fun w =>
  (Normal tt, with_effects (bolt_entry (Say text) (effects w)) w).

Definition existsSync (file : jsstring) : JS bool := fun w =>
  (Normal (bool_decide (is_Some (files w !! file))), w).

(** [fs.unlinkSync] throws when the file does not exist. *)
Definition unlinkSync (file : jsstring) : JS unit := fun w =>
  match files w !! file with
  | Some _ => (Normal tt, with_files (delete file (files w)) w)
  | None => (Throw {| error_message := str "ENOENT" |}, w)
  end.

(** [fs.writeFileSync(file, JSON.stringify(session, null, 2))]: the file
    holds the session, whatever it held before. *)
Definition writeFileSync (file : jsstring) (s : Session) : JS unit := fun w =>
  (Normal tt, with_files (<[file := s]> (files w)) w).

(** [a || b] where [a] may be undefined and [b] is a string. *)
Definition or_else (a : option jsstring) (b : jsstring) : jsstring :=
  match a with
  | Some s => if truthy s then s else b
  | None => b
  end.

(** ** The Slack channel *)

(** [path.join(this.sessionsDir, `${sessionId}.json`)], for a directory
    path in normal form and an id without path separators. *)
Definition sessionFile (this : SlackChannel) (sessionId : jsstring)
  : jsstring :=
  sessionsDir this ++ str "/" ++ sessionId ++ str ".json".

Definition is_set (o : option jsstring) : bool :=
  match o with
  | Some s => truthy s
  | None => false
  end.

Definition _validateConfig (this : SlackChannel) : JS bool :=
  if negb (is_set (botToken this)) then
    logger LogWarn [str "Slack Bot Token not found"];; mret false
  else if negb (is_set (channelId this)) then
    logger LogWarn [str "Slack Channel ID not found"];; mret false
  else mret true.

Definition validateConfig (this : SlackChannel) : JS bool :=
  _validateConfig this.

Definition chars : jsstring := str "ABCDEFGHIJKLMNOPQRSTUVWXYZ0123456789".

Definition _generateToken : JS jsstring :=
  for_loop 8
    (fun tok =>
       r ← Math_random;
       mret (tok ++ charAt chars
                      (Math_floor (mul r (Number_of_Z (Z.of_nat (length chars)))))))
    [].

Definition _getCurrentTmuxSession : JS (option jsstring) :=
  try_catch
    (out ← execSync_tmux_display_message;
     let tmuxSession := trim out in
     mret (if truthy tmuxSession then Some tmuxSession else None))
    (fun error => mret None).

(** [notification.metadata?.tmuxSession] *)
Definition metadata_context (n : Notification) : option jsstring :=
  match metadata n with
  | Some md => metadata_tmuxSession md
  | None => None
  end.

Definition day_ms : Z := 24 * 60 * 60 * 1000.

(** [_createSession] returns the session id; it also assigns to
    [notification.metadata], and the caller goes on using the same
    object, so the notification is returned next to the id. *)
Definition _createSession (this : SlackChannel) (n : Notification)
  (tok : jsstring) : JS (jsstring * Notification) :=
  sessionId ← uuidv4;
  tmuxSession ← _getCurrentTmuxSession;
  n ← match tmuxSession, metadata n with
       | Some name, None =>
           conversation ← getRecentConversation name;
           mret {| notification_type := notification_type n;
                   notification_project := notification_project n;
                   message := message n;
                   metadata := Some
                     {| userQuestion :=
                          Some (or_else (conversation_userQuestion conversation)
                                        (message n));
                        claudeResponse :=
                          Some (or_else (conversation_claudeResponse conversation)
                                        (message n));
                        metadata_tmuxSession := Some name |} |}
       | _, _ => mret n
       end;
  created_at ← Date_now;
  now ← Date_now;
  let session :=
    {| id := sessionId;
       token := tok;
       type := str "slack";
       created := created_at;
       expires := (now + day_ms)%Z;
       tmuxSession := or_else (metadata_context n) (str "default");
       project := notification_project n;
       notification := n |} in
  writeFileSync (sessionFile this sessionId) session;;
  logger LogDebug [str "Session created: " ++ sessionId];;
  mret (sessionId, n).

Definition _removeSession (this : SlackChannel) (sessionId : jsstring)
  : JS unit :=
  let file := sessionFile this sessionId in
  present ← existsSync file;
  if (present : bool) then
    unlinkSync file;;
    logger LogDebug [str "Session removed: " ++ sessionId]
  else mret tt.

Definition quoted_field (title : string) (o : option jsstring) (limit : nat)
  : jsstring :=
  match o with
  | Some text =>
      if truthy text then
        str title ++ [10; 62; 32] ++ substring_to text limit ++ [10; 10]
      else []
  | None => []
  end.

Definition _generateSlackMessage (n : Notification) (tok : jsstring)
  : jsstring :=
  let completed := bool_decide (notification_type n = str "completed") in
  let emoji := if completed then [9989] else [9203] in
  let status := if completed then str "Completed"
                else str "Waiting for Input" in
  emoji ++ str " *Claude Task " ++ status ++ str "*" ++ [10; 10]
  ++ (str "*Project:*" ++ [10] ++ notification_project n ++ [10; 10])
  ++ (str "*Session Token:*" ++ [10] ++ str "`" ++ tok ++ str "`" ++ [10; 10])
  ++ quoted_field "*Your Question:*"
       (match metadata n with Some md => userQuestion md | None => None end)
       500
  ++ quoted_field "*Claude Response:*"
       (match metadata n with Some md => claudeResponse md | None => None end)
       1000
  ++ (str "To send a new command, use: `/claude " ++ tok
      ++ str " <your command>`").

Definition _sendImpl (this : SlackChannel) (n : Notification) : JS bool :=
  configured ← validateConfig this;
  if negb configured then
    throw {| error_message := str "Slack channel not properly configured" |}
  else
    tok ← _generateToken;
    created_session ← _createSession this n tok;
    let sessionId := created_session.1 in
    let n := created_session.2 in
    let messageText := _generateSlackMessage n tok in
    try_catch
      (chat_postMessage (channelId this) messageText;;
       logger LogInfo
         [str "Slack message sent successfully, Session: " ++ sessionId];;
       mret true)
      (fun error =>
         logger LogError
           [str "Failed to send Slack message:"; error_message error];;
         _removeSession this sessionId;;
         mret false).

Definition handleCommand (this : SlackChannel) (command tok : jsstring)
  : JS RelayResult :=
  logger LogInfo
    [str "Handling command from Slack: " ++ [34] ++ command ++ [34]
     ++ str " with token " ++ tok];;
  relayCommand tok command.

(** ** The [/claude] slash command *)

(** [A-Z0-9] *)
Definition isTokenChar (c : N) : bool :=
  ((65 <=? c) && (c <=? 90)) || ((48 <=? c) && (c <=? 57)).

(** The group [([A-Z0-9]{8})] and the [\s] that follows it in
    [/^([A-Z0-9]{8})\s/]. *)
Definition token_group : regex := Times 8 (Class isTokenChar).
Definition whitespace : regex := Class isTrimmable.

(** [text.match(/^([A-Z0-9]{8})\s/)]: [tokenMatch[1]] when there is a
    match. *)
Definition tokenMatch (text : jsstring) : option jsstring :=
  capture_prefix token_group whitespace text.

Definition invalid_format_reply : jsstring :=
  str "Invalid command format. Please use: `/claude <TOKEN> <your command>`".

Definition missing_command_reply : jsstring :=
  str "Invalid command format. Please include a command after the token.".

Definition unexpected_error_reply : jsstring :=
  str "An unexpected error occurred. Please check the logs.".

(** [`${value}`] of a possibly undefined string *)
Definition interpolate (o : option jsstring) : jsstring :=
  match o with
  | Some s => s
  | None => str "undefined"
  end.

(** The callback of [app.command('/claude', ...)], applied to
    [command.text]. *)
Definition command_claude (this : SlackChannel) (command_text : jsstring)
  : JS unit :=
  ack;;
  let text := trim command_text in
  match tokenMatch text with
  | None => say invalid_format_reply
  | Some tok =>
      let commandText := substring_from text (length tok + 1) in
      if negb (truthy commandText) then say missing_command_reply
      else
        try_catch
          (result ← handleCommand this commandText tok;
           if success result then
             match result_session result with
             | Some s =>
                 say ([9989] ++ str " Command sent to session `"
                      ++ tmuxSession s ++ str "`: `" ++ commandText
                      ++ str "`")
             | None =>
                 throw {| error_message :=
                            str "Cannot read properties of undefined (reading 'tmuxSession')" |}
             end
           else
             say ([10060] ++ str " Failed to send command: "
                  ++ interpolate (result_message result)))
          (fun error =>
             logger LogError
               [str "Error handling command:"; error_message error];;
             say unexpected_error_reply)
  end.

(** ** The statements of the specification, as predicates *)

(** The pattern of the specification, [^[A-Z0-9]{8}\s+.+$]: the dot
    matches every code unit but a line terminator. *)
Definition spec_pattern : regex :=
  Cat token_group
      (Cat (Plus whitespace)
           (Plus (Class (fun c => negb (isLineTerminator c))))).

Definition matches_spec_pattern (text : jsstring) : bool :=
  accepts spec_pattern text.

(** A session is live at [now] when it has not expired. *)
Definition live (now : Z) (s : Session) : bool := (now <=? expires s)%Z.

(** No two live session files hold the same token. *)
Definition live_tokens_unique (now : Z) (dir : gmap (list N) Session)
  : Prop :=
  forall f1 f2 s1 s2,
    dir !! f1 = Some s1 -> dir !! f2 = Some s2 ->
    live now s1 = true -> live now s2 = true ->
    token s1 = token s2 -> f1 = f2.

(** The operations of the program: the three methods of the channel
    that touch the session directory, and the slash command. *)
Inductive StoreOp : Type :=
| OpSend (n : Notification)
| OpCreate (n : Notification) (tok : jsstring)
| OpRemove (sessionId : jsstring)
| OpCommand (command_text : jsstring).

Definition run_op (this : SlackChannel) (op : StoreOp) (w : World) : World :=
  match op with
  | OpSend n => (_sendImpl this n w).2
  | OpCreate n tok => (_createSession this n tok w).2
  | OpRemove sessionId => (_removeSession this sessionId w).2
  | OpCommand command_text => (command_claude this command_text w).2
  end.

(** The id that the next call of [uuidv4] returns. *)
Definition next_uuid (w : World) : jsstring := tape_next (uuid (ambient w)).

(** The id used by the session that [op] creates in [w], if it creates
    one. *)
Definition op_creates (this : SlackChannel) (op : StoreOp) (w : World)
  : option jsstring :=
  match op with
  | OpSend n =>
      if is_set (botToken this) && is_set (channelId this)
      then Some (next_uuid w) else None
  | OpCreate _ _ => Some (next_uuid w)
  | OpRemove _ => None
  | OpCommand _ => None
  end.

(** The contract of [Math.random]: every draw [d] is a binary64 number
    with [0 <= d < 1]. *)
Definition draws_in_unit_interval (w : World) : Prop :=
  forall k, unit_interval (tape_at (random (ambient w)) k) = true.

(** The string built by [k] rounds of the loop of [_generateToken] from
    the draws at positions [pos], [pos + 1], ... *)
Fixpoint token_from (draw : nat -> number) (pos k : nat) (tok : jsstring)
  : jsstring :=
  match k with
  | O => tok
  | S k' =>
      token_from draw (S pos) k'
        (tok ++ charAt chars
                  (Math_floor
                     (mul (draw pos) (Number_of_Z (Z.of_nat (length chars))))))
  end.

(** What [_getCurrentTmuxSession] makes of the answer of tmux. *)
Definition current_context (r : ExecResult) : option jsstring :=
  match r with
  | ExecStdout out => if truthy (trim out) then Some (trim out) else None
  | ExecFails _ => None
  end.

(** The notification after [_createSession] has looked at it: metadata
    is filled in when a tmux session was found and there was none. *)
Definition with_conversation (ctx : option jsstring) (c : Conversation)
  (n : Notification) : Notification :=
  match ctx, metadata n with
  | Some name, None =>
      {| notification_type := notification_type n;
         notification_project := notification_project n;
         message := message n;
         metadata := Some
           {| userQuestion :=
                Some (or_else (conversation_userQuestion c) (message n));
              claudeResponse :=
                Some (or_else (conversation_claudeResponse c) (message n));
              metadata_tmuxSession := Some name |} |}
  | _, _ => n
  end.

(** The session object built by [_createSession] for the id [sid], the
    token [tok], the clock readings [t1] (for [created]) and [t2] (for
    [expires]) and the notification [n]. *)
Definition session_object (sid tok : jsstring) (t1 t2 : Z) (n : Notification)
  : Session :=
  {| id := sid;
     token := tok;
     type := str "slack";
     created := t1;
     expires := (t2 + day_ms)%Z;
     tmuxSession := or_else (metadata_context n) (str "default");
     project := notification_project n;
     notification := n |}.

(** The send operation hands its caller a value from which the token and
    the id of the session it created can be read off. *)
Definition returns_token_and_id
  (send : SlackChannel -> Notification -> JS bool) : Prop :=
  exists decode : bool -> jsstring * jsstring,
    forall this n w w' r s,
      send this n w = (Normal r, w') ->
      files w' !! sessionFile this (next_uuid w) = Some s ->
      decode r = (token s, id s).

(** ** Sample inputs *)

Definition constant_tape {A} (a : A) : Tape A :=
  {| tape_at := fun _ => a; tape_pos := 0 |}.

Definition sample_channel : SlackChannel :=
  {| botToken := Some (str "xoxb-1");
     channelId := Some (str "C0123");
     sessionsDir := str "/srv/data/sessions" |}.

Definition sample_notification : Notification :=
  {| notification_type := str "completed";
     notification_project := str "demo";
     message := str "done";
     metadata := None |}.

Definition no_tmux : ExecResult :=
  ExecFails {| error_message := str "no server running" |}.

Definition relay_refusal : RelayOutcome :=
  RelayResolved {| success := false; result_session := None;
                   result_message := Some (str "token not found") |}.

(** An environment without tmux in which every random draw is 0, the
    k-th uuid is a run of k+1 letters, the clock advances by [tick]
    milliseconds per reading and Slack answers every post with [answer]. *)
Definition sample_ambient (tick : Z) (answer : PostResult) : Ambient :=
  {| random := constant_tape (S754_zero false);
     clock := {| tape_at := fun k => (1000 + tick * Z.of_nat k)%Z;
                 tape_pos := 0 |};
     uuid := {| tape_at := fun k => repeat 97 (S k); tape_pos := 0 |};
     tmux := constant_tape no_tmux;
     monitor := constant_tape {| conversation_userQuestion := None;
                                 conversation_claudeResponse := None |};
     slack := constant_tape answer;
     relay := constant_tape relay_refusal |}.

Definition no_effects : Effects :=
  {| logged := []; posted := []; bolt := []; relayed := [] |}.

Definition sample_world (tick : Z) (answer : PostResult) : World :=
  {| files := ∅; effects := no_effects;
     ambient := sample_ambient tick answer |}.

(** [w] with every random draw replaced by [d] and its first uuid
    already used. *)
Definition redrawn (d : number) (w : World) : World :=
  with_ambient
    {| random := constant_tape d;
       clock := clock (ambient w);
       uuid := tape_advance (uuid (ambient w));
       tmux := tmux (ambient w);
       monitor := monitor (ambient w);
       slack := slack (ambient w);
       relay := relay (ambient w) |}
    w.

(** The binary64 number 0.5 *)
Definition one_half : number := S754_finite false 4503599627370496 (-53).

(** The largest binary64 number below 1. *)
Definition largest_draw : number := S754_finite false 9007199254740991 (-53).

(** ** Start of the server *)

(** The variables of [process.env] that the script reads. *)
Record Environment : Type := {
  SLACK_BOT_TOKEN : option jsstring;
  SLACK_SIGNING_SECRET : option jsstring;
  SLACK_CHANNEL_ID : option jsstring;
  SLACK_APP_TOKEN : option jsstring
}.

(** [slackConfig] *)
Record SlackConfig : Type := {
  config_botToken : option jsstring;
  config_signingSecret : option jsstring;
  config_channelId : option jsstring;
  config_appToken : option jsstring
}.

Definition slackConfig (env : Environment) : SlackConfig :=
  {| config_botToken := SLACK_BOT_TOKEN env;
     config_signingSecret := SLACK_SIGNING_SECRET env;
     config_channelId := SLACK_CHANNEL_ID env;
     config_appToken := SLACK_APP_TOKEN env |}.

(** [new SlackChannel(config)]: the constructor hands [config] to the
    base class, which keeps it as [this.config], and sets
    [this.sessionsDir] to the directory [dir] it computes from
    [__dirname]. *)
Definition new_SlackChannel (config : SlackConfig) (dir : jsstring)
  : SlackChannel :=
  {| botToken := config_botToken config;
     channelId := config_channelId config;
     sessionsDir := dir |}.

(** The top of the script, from the check of the environment to the
    creation of the channel.  [None] stands for [process.exit(1)]. *)
Definition startup (env : Environment) (dir : jsstring)
  : JS (option SlackChannel) :=
  let config := slackConfig env in
  if negb (is_set (config_botToken config))
     || negb (is_set (config_signingSecret config))
     || negb (is_set (config_appToken config))
  then
    logger LogError
      [[10060] ++ str " Missing Slack environment variables. Please check your .env file."];;
    logger LogError
      [str "   Required: SLACK_BOT_TOKEN, SLACK_SIGNING_SECRET, SLACK_APP_TOKEN"];;
    mret None
  else mret (Some (new_SlackChannel config dir)).

(** ** Auxiliary descriptions used in the statements *)

(** The reply of the [/claude] handler and the lines it logs after the
    relay answered [o] to the command [commandText]. *)
Definition handler_reply (commandText : jsstring) (o : RelayOutcome)
  : jsstring * list (LogLevel * list jsstring) :=
  match o with
  | RelayResolved r =>
      if success r then
        match result_session r with
        | Some s =>
            ([9989] ++ str " Command sent to session `" ++ tmuxSession s
             ++ str "`: `" ++ commandText ++ str "`", [])
        | None =>
            (unexpected_error_reply,
             [(LogError, [str "Error handling command:";
                          str "Cannot read properties of undefined (reading 'tmuxSession')"])])
        end
      else
        ([10060] ++ str " Failed to send command: "
         ++ interpolate (result_message r), [])
  | RelayRejected e =>
      (unexpected_error_reply,
       [(LogError, [str "Error handling command:"; error_message e])])
  end.

(** [w] with the random draws [draw 0], [draw 1], ... *)
Definition with_draws (draw : nat -> number) (w : World) : World :=
  with_ambient
    {| random := {| tape_at := draw; tape_pos := 0 |};
       clock := clock (ambient w);
       uuid := uuid (ambient w);
       tmux := tmux (ambient w);
       monitor := monitor (ambient w);
       slack := slack (ambient w);
       relay := relay (ambient w) |}
    w.

(** The part of an optional text that a message shows: its first
    [limit] code units; nothing when the text is missing. *)
Definition shown_text (o : option jsstring) (limit : nat) : jsstring :=
  match o with
  | Some text => substring_to text limit
  | None => []
  end.

Definition shown_question (n : Notification) : jsstring :=
  shown_text (match metadata n with
              | Some md => userQuestion md
              | None => None
              end) 500.

Definition shown_response (n : Notification) : jsstring :=
  shown_text (match metadata n with
              | Some md => claudeResponse md
              | None => None
              end) 1000.

(** [w] in an environment where tmux answers every query with [r]. *)
Definition with_tmux (r : ExecResult) (w : World) : World :=
  with_ambient
    {| random := random (ambient w);
       clock := clock (ambient w);
       uuid := uuid (ambient w);
       tmux := constant_tape r;
       monitor := monitor (ambient w);
       slack := slack (ambient w);
       relay := relay (ambient w) |}
    w.

(** A notification that brings its own metadata, without a tmux
    session. *)
Definition question_notification : Notification :=
  {| notification_type := str "waiting";
     notification_project := str "demo";
     message := str "input needed";
     metadata := Some {| userQuestion := Some (str "why?");
                         claudeResponse := None;
                         metadata_tmuxSession := None |} |}.

(** The position of a character of [A-Z0-9] in [chars]. *)
Definition index_of_char (c : N) : Z :=
  if (65 <=? c) && (c <=? 90) then Z.of_N c - 65 else Z.of_N c - 48 + 26.

(** A binary64 number in the middle of the [i]-th of 36 equal parts of
    the unit interval: [(2 i + 1) / 72], rounded down to 52 bits. *)
Definition draw_of_index (i : Z) : number :=
  binary_normalize prec emax (((2 * i + 1) * 2 ^ 52) / 72)%Z (-52) false.

Definition draw_of_char (c : N) : number := draw_of_index (index_of_char c).

(** * Proofs *)

(** Projections of an updated world. *)
Ltac world_simpl :=
  cbn [ambient effects files with_effects with_ambient with_files
       logged posted bolt relayed log_entry post_entry bolt_entry relay_entry
       fst snd].

(** ** Rounding of binary64 products *)

Section Rounding.

Local Open Scope Z_scope.

(** [digits2_pos p] is the number of binary digits of [p]. *)
Lemma digits2_pos_bounds (p : positive) :
  2 ^ (Zpos (digits2_pos p) - 1) <= Zpos p < 2 ^ Zpos (digits2_pos p).
Proof.
  induction p as [p IH | p IH |]; cbn [digits2_pos].
  - rewrite Pos2Z.inj_succ.
    replace (Z.succ (Zpos (digits2_pos p)) - 1) with (Z.succ (Zpos (digits2_pos p) - 1)) by lia.
    rewrite !Z.pow_succ_r by lia. lia.
  - rewrite Pos2Z.inj_succ.
    replace (Z.succ (Zpos (digits2_pos p)) - 1) with (Z.succ (Zpos (digits2_pos p) - 1)) by lia.
    rewrite !Z.pow_succ_r by lia. lia.
  - cbn. lia.
Qed.

(** The iterator of the rounding loop counts in unary. *)
Lemma iter_pos_nat {A} (f : A -> A) (p : positive) (x : A) :
  SpecFloat.iter_pos f p x = Nat.iter (Pos.to_nat p) f x.
Proof.
  revert x. induction p as [p IH | p IH |]; intros x; cbn [SpecFloat.iter_pos].
  - rewrite !IH, Pos2Nat.inj_xI.
    replace (S (2 * Pos.to_nat p)) with (Pos.to_nat p + (Pos.to_nat p + 1))%nat by lia.
    rewrite !Nat.iter_add. reflexivity.
  - rewrite !IH, Pos2Nat.inj_xO.
    replace (2 * Pos.to_nat p)%nat with (Pos.to_nat p + Pos.to_nat p)%nat by lia.
    rewrite Nat.iter_add. reflexivity.
  - reflexivity.
Qed.

(** One more halving keeps the invariant. *)
Lemma shr_1_shifted m0 k st :
  shifted m0 k st -> shifted m0 (S k) (shr_1 st).
Proof.
  intros [Hn Hl Hu Hr _]. destruct st as [m r s]. cbn [shr_m shr_r] in *.
  assert (Hp : 0 < 2 ^ Z.of_nat k) by (apply Z.pow_pos_nonneg; lia).
  assert (Hk : 2 ^ Z.of_nat (S k) = 2 * 2 ^ Z.of_nat k)
    by (rewrite Nat2Z.inj_succ, Z.pow_succ_r by lia; reflexivity).
  assert (Hk' : Z.of_nat (S k) - 1 = Z.of_nat k) by lia.
  destruct m as [| [p | p |] | p]; cbn [shr_1]; try lia.
  all: split; cbn [shr_m shr_r shr_s]; rewrite ?Hk, ?Hk'.
  all: try lia; try nia.
Qed.

Lemma iter_shr_1_shifted m0 k :
  0 <= m0 -> shifted m0 k (Nat.iter k shr_1 (Build_shr_record m0 false false)).
Proof.
  intros H0. induction k as [| k IH].
  - cbn. split; cbn; lia.
  - cbn [Nat.iter]. apply shr_1_shifted. exact IH.
Qed.

(** [shr] applied to an exact mantissa: [n] halvings when [n] is positive. *)
Lemma shr_exact_shifted m0 e n :
  0 <= m0 ->
  exists k st, shr (Build_shr_record m0 false false) e n = (st, e + Z.of_nat k)
               /\ Z.of_nat k = Z.max n 0 /\ shifted m0 k st.
Proof.
  intros H0. destruct n as [| p | p]; cbn [shr].
  - exists 0%nat. eexists. rewrite Z.add_0_r. split; [reflexivity |].
    split; [reflexivity |]. apply (iter_shr_1_shifted m0 0 H0).
  - exists (Pos.to_nat p). eexists. rewrite iter_pos_nat, positive_nat_Z.
    split; [reflexivity |]. split; [lia |]. apply iter_shr_1_shifted, H0.
  - exists 0%nat. eexists. rewrite Z.add_0_r. split; [reflexivity |].
    split; [reflexivity |]. apply (iter_shr_1_shifted m0 0 H0).
Qed.

(** Rounding to nearest adds at most one half of the last place. *)
Lemma round_nearest_even_shifted m0 k st :
  shifted m0 k st ->
  let m1 := round_nearest_even (shr_m st) (loc_of_shr_record st) in
  0 <= m1 /\ m1 <= shr_m st + 1
  /\ (k = 0%nat -> m1 = m0)
  /\ ((0 < k)%nat -> m1 * 2 ^ Z.of_nat k <= m0 + 2 ^ (Z.of_nat k - 1)).
Proof.
  intros [Hn Hl Hu Hr Hx]. destruct st as [m r s]. cbn [shr_m shr_r shr_s] in *.
  assert (Hp : 0 < 2 ^ Z.of_nat k) by (apply Z.pow_pos_nonneg; lia).
  assert (Hq : 0 <= 2 ^ (Z.of_nat k - 1)) by (apply Z.pow_nonneg; lia).
  destruct r.
  - destruct (Hr eq_refl) as [Hk Hh].
    assert (Hd : 2 ^ Z.of_nat k = 2 * 2 ^ (Z.of_nat k - 1)).
    { rewrite <- Z.pow_succ_r by lia. f_equal. lia. }
    destruct s; cbn [loc_of_shr_record round_nearest_even];
      try destruct (Z.even m); repeat split; try lia; try nia.
  - assert (Hm : k = 0%nat -> m = m0).
    { intros ->. cbn in Hl, Hu. lia. }
    destruct s; cbn [loc_of_shr_record round_nearest_even];
      repeat split; try lia; try nia; auto.
Qed.

Lemma fexp_eq x : fexp prec emax x = Z.max (x - 53) (-1074).
Proof. reflexivity. Qed.

(** Rounding an exact product [mx * 2^ex]: the result is [m * 2^e] with
    [e >= ex], and it exceeds the product by at most half a unit in the
    last place (of a normal or of a subnormal result). *)
Lemma binary_round_aux_exact (mx : positive) (ex : Z) :
  exists m e,
    binary_round_aux prec emax false (Zpos mx) ex loc_Exact = round_result m e
    /\ 0 <= m /\ ex <= e
    /\ m * 2 ^ (e - ex) <= Zpos mx + Z.max (Zpos mx / 2 ^ 53) (2 ^ (-1075 - ex)).
Proof.
  unfold binary_round_aux, shr_fexp. cbn [shr_record_of_loc Zdigits2].
  rewrite fexp_eq.
  pose proof (digits2_pos_bounds mx) as Hd.
  set (d := Zpos (digits2_pos mx)) in *.
  destruct (shr_exact_shifted (Zpos mx) ex (Z.max (d + ex - 53) (-1074) - ex))
    as (k1 & st1 & -> & Hk1 & Hs1); [lia |].
  pose proof (round_nearest_even_shifted _ _ _ Hs1) as Hr. cbv zeta in Hr.
  set (m1 := round_nearest_even (shr_m st1) (loc_of_shr_record st1)) in *.
  destruct Hr as (Hm1 & _ & Hk0 & Hkp).
  rewrite fexp_eq.
  destruct (shr_exact_shifted m1 (ex + Z.of_nat k1)
              (Z.max (Zdigits2 m1 + (ex + Z.of_nat k1) - 53) (-1074) - (ex + Z.of_nat k1)))
    as (k2 & st2 & -> & _ & Hs2); [lia |].
  destruct Hs2 as [Hn2 Hl2 _ _ _].
  exists (shr_m st2), (ex + Z.of_nat k1 + Z.of_nat k2).
  split; [unfold round_result; destruct (shr_m st2); reflexivity |].
  split; [exact Hn2 |]. split; [lia |].
  replace (ex + Z.of_nat k1 + Z.of_nat k2 - ex) with (Z.of_nat k2 + Z.of_nat k1) by lia.
  rewrite Z.pow_add_r by lia.
  assert (Hp1 : 0 < 2 ^ Z.of_nat k1) by (apply Z.pow_pos_nonneg; lia).
  assert (Hp2 : 0 < 2 ^ Z.of_nat k2) by (apply Z.pow_pos_nonneg; lia).
  assert (Hdiv : 0 <= Zpos mx / 2 ^ 53) by (apply Z.div_pos; lia).
  assert (Hstep : shr_m st2 * (2 ^ Z.of_nat k2 * 2 ^ Z.of_nat k1) <= m1 * 2 ^ Z.of_nat k1) by nia.
  destruct k1 as [| k1].
  - rewrite (Hk0 eq_refl) in Hstep. cbn in Hstep. cbn [Z.of_nat]. rewrite Z.pow_0_r. lia.
  - specialize (Hkp ltac:(lia)).
    assert (Hhalf : 2 ^ (Z.of_nat (S k1) - 1)
                    <= Z.max (Zpos mx / 2 ^ 53) (2 ^ (-1075 - ex))).
    { destruct (Z.max_spec (d + ex - 53) (-1074)) as [[Hlt Heq] | [Hle Heq]];
        rewrite Heq in Hk1.
      - replace (Z.of_nat (S k1) - 1) with (-1075 - ex) by lia. lia.
      - assert (2 ^ (Z.of_nat (S k1) - 1) <= Zpos mx / 2 ^ 53); [| lia].
        apply Z.div_le_lower_bound; [lia |].
        rewrite <- Z.pow_add_r by lia.
        replace (53 + (Z.of_nat (S k1) - 1)) with (d - 1) by lia. lia. }
    lia.
Qed.

Lemma Number_of_Z_1 : Number_of_Z 1 = S754_finite false 4503599627370496 (-52).
Proof. vm_compute. reflexivity. Qed.

Lemma Number_of_Z_36 : Number_of_Z 36 = S754_finite false 5066549580791808 (-47).
Proof. vm_compute. reflexivity. Qed.

(** The integers of an index are represented exactly. *)
Lemma small_integer_exact q :
  0 <= q < 36 -> ToIntegerOrInfinity (Number_of_Z q) = Some q.
Proof.
  intros Hq. rewrite <- (Z2Nat.id q) by lia.
  assert (Hn : (Z.to_nat q < 36)%nat) by lia.
  set (n := Z.to_nat q) in *. clearbody n. clear Hq.
  do 36 (destruct n as [| n]; [vm_compute; reflexivity |]). lia.
Qed.

(** Comparison of two positive finite numbers. *)
Lemma SFltb_finite_pos m1 e1 m2 e2 :
  SFltb (S754_finite false m1 e1) (S754_finite false m2 e2) = true ->
  e1 < e2 \/ (e1 = e2 /\ Zpos m1 < Zpos m2).
Proof.
  unfold SFltb, SFcompare. destruct (Z.compare_spec e1 e2) as [He | He | He].
  - rewrite Pos.compare_cont_spec. unfold Pos.switch_Eq.
    destruct (Pos.compare_spec m1 m2) as [Hm | Hm | Hm]; try discriminate.
    intros _. right. split; [exact He |]. apply Pos2Z.pos_lt_pos, Hm.
  - intros _. left. exact He.
  - discriminate.
Qed.

(** A finite draw is [m * 2^e] with [m < 2^53] and [e <= -53]. *)
Lemma unit_interval_finite s m e :
  unit_interval (S754_finite s m e) = true ->
  s = false /\ Zpos m < 2 ^ 53 /\ -1074 <= e <= -53.
Proof.
  unfold unit_interval. rewrite !andb_true_iff. intros [[Hv Hle] Hlt].
  destruct s; [discriminate Hle |]. split; [reflexivity |].
  cbn [valid_binary] in Hv. unfold bounded, canonical_mantissa in Hv.
  apply andb_true_iff in Hv. destruct Hv as [Hc _].
  apply Z.eqb_eq in Hc. rewrite fexp_eq in Hc.
  pose proof (digits2_pos_bounds m) as Hd.
  set (d := Zpos (digits2_pos m)) in *.
  assert (Hd53 : d <= 53) by lia.
  assert (Hm : Zpos m < 2 ^ 53).
  { apply Z.lt_le_trans with (2 ^ d); [lia |]. apply Z.pow_le_mono_r; lia. }
  split; [exact Hm |]. split; [lia |].
  rewrite Number_of_Z_1 in Hlt. apply SFltb_finite_pos in Hlt.
  destruct Hlt as [He | [He Hlt]]; [lia |].
  subst e. assert (Hd' : d - 1 = 52) by lia. rewrite Hd' in Hd.
  assert (H52 : 2 ^ 52 = 4503599627370496) by reflexivity.
  rewrite H52 in Hd. clear - Hd Hlt. lia.
Qed.

(** [Math.floor(Math.random() * 36)] is one of 0, ..., 35. *)
Lemma random_index_range (d : spec_float) :
  unit_interval d = true ->
  exists i, ToIntegerOrInfinity (Math_floor (SFmul prec emax d (Number_of_Z 36))) = Some i
            /\ 0 <= i < 36.
Proof.
  intros Hu.
  rewrite Number_of_Z_36.
  destruct d as [s | s | | s m e].
  - exists 0. cbn. split; [reflexivity | lia].
  - destruct s; discriminate Hu.
  - discriminate Hu.
  - destruct (unit_interval_finite _ _ _ Hu) as (-> & Hm & He).
    cbn [SFmul xorb].
    destruct (binary_round_aux_exact (m * 5066549580791808) (e + -47))
      as (m2 & e2 & -> & Hm2 & He2 & Hb).
    rewrite Pos2Z.inj_mul in Hb.
    set (P := Zpos m * 5066549580791808) in *.
    assert (HP : P <= 5066549580791808 * (2 ^ 53 - 1)) by (unfold P; lia).
    assert (Hlt : m2 * 2 ^ (e2 - (e + -47)) < 36 * 2 ^ (- (e + -47))).
    { apply Z.le_lt_trans with (1 := Hb).
      apply Z.lt_le_trans with (36 * 2 ^ 100).
      - assert (Hq : P / 2 ^ 53 < 5066549580791808).
        { apply Z.div_lt_upper_bound; [lia |]. unfold P. lia. }
        assert (Hs : 2 ^ (-1075 - (e + -47)) <= 2 ^ 46).
        { apply Z.pow_le_mono_r; lia. }
        change (2 ^ 46) with 70368744177664 in Hs.
        change (2 ^ 53) with 9007199254740992 in *.
        change (2 ^ 100) with 1267650600228229401496703205376.
        lia.
      - apply Z.mul_le_mono_nonneg_l; [lia |]. apply Z.pow_le_mono_r; lia. }
    destruct m2 as [| p | p]; [| | lia].
    + exists 0. cbn. split; [reflexivity | lia].
    + unfold round_result.
      assert (Hp : 0 < 2 ^ (e2 - (e + -47))) by (apply Z.pow_pos_nonneg; lia).
      assert (He6 : e2 < 6).
      { assert (H2 : 2 ^ (e2 - (e + -47)) < 2 ^ (6 - (e + -47))).
        { apply Z.le_lt_trans with (Zpos p * 2 ^ (e2 - (e + -47))); [nia |].
          apply Z.lt_le_trans with (1 := Hlt).
          replace (6 - (e + -47)) with (6 + - (e + -47)) by lia.
          rewrite Z.pow_add_r by lia. change (2 ^ 6) with 64.
          assert (0 < 2 ^ (- (e + -47))) by (apply Z.pow_pos_nonneg; lia). lia. }
        apply Z.pow_lt_mono_r_iff in H2; lia. }
      replace (e2 <=? emax - prec) with true by (symmetry; apply Z.leb_le; unfold emax, prec; lia).
      cbn [Math_floor].
      destruct (Z.leb_spec 0 e2) as [Hpos | Hneg].
      * cbn [ToIntegerOrInfinity]. replace (0 <=? e2) with true by (symmetry; apply Z.leb_le; lia).
        exists (Zpos p * 2 ^ e2). split; [reflexivity |].
        assert (0 < 2 ^ e2) by (apply Z.pow_pos_nonneg; lia).
        split; [lia |].
        replace (e2 - (e + -47)) with (e2 + - (e + -47)) in Hlt by lia.
        rewrite Z.pow_add_r in Hlt by lia.
        assert (0 < 2 ^ (- (e + -47))) by (apply Z.pow_pos_nonneg; lia). nia.
      * cbv zeta.
        assert (Hd : 0 < 2 ^ (- e2)) by (apply Z.pow_pos_nonneg; lia).
        assert (Hq : 0 <= Zpos p / 2 ^ (- e2) < 36).
        { split; [apply Z.div_pos; lia |].
          apply Z.div_lt_upper_bound; [lia |].
          replace (- (e + -47)) with (- e2 + (e2 - (e + -47))) in Hlt by lia.
          rewrite Z.pow_add_r in Hlt by lia. nia. }
        exists (Zpos p / 2 ^ (- e2)). split; [| exact Hq].
        apply small_integer_exact, Hq.
Qed.

End Rounding.

(** ** Regular expressions: the matcher decides the language *)

Section RegexFacts.

Lemma lang_cat_inv (a b : regex) (s : jsstring) :
  lang (Cat a b) s -> exists u t, s = u ++ t /\ lang a u /\ lang b t.
Proof. inversion 1; subst; eauto. Qed.

Lemma lang_alt_inv (a b : regex) (s : jsstring) :
  lang (Alt a b) s -> lang a s \/ lang b s.
Proof. inversion 1; subst; auto. Qed.

Lemma lang_star_inv (a : regex) (c : N) (s : jsstring) :
  lang (Star a) (c :: s) ->
  exists u t, s = u ++ t /\ lang a (c :: u) /\ lang (Star a) t.
Proof. inversion 1; subst; eauto. Qed.

Lemma nullable_lang (r : regex) : nullable r = true <-> lang r [].
Proof.
  induction r as [| | p | a IHa b IHb | a IHa b IHb | a IHa]; cbn [nullable].
  - split; [discriminate | inversion 1].
  - split; [constructor | reflexivity].
  - split; [discriminate | inversion 1].
  - rewrite andb_true_iff, IHa, IHb. split.
    + intros [Ha Hb]. apply (lang_cat a b [] [] Ha Hb).
    + intros H. apply lang_cat_inv in H. destruct H as (u & t & Heq & Hu & Ht).
      symmetry in Heq. apply app_eq_nil in Heq. destruct Heq as [-> ->]. auto.
  - rewrite orb_true_iff, IHa, IHb. split.
    + intros [H | H]; [apply lang_alt_l | apply lang_alt_r]; exact H.
    + apply lang_alt_inv.
  - split; [constructor | reflexivity].
Qed.

Lemma deriv_lang (r : regex) (c : N) (s : jsstring) :
  lang (deriv c r) s <-> lang r (c :: s).
Proof.
  revert s.
  induction r as [| | p | a IHa b IHb | a IHa b IHb | a IHa];
    intros s; cbn [deriv].
  - split; inversion 1.
  - split; inversion 1.
  - destruct (p c) eqn:Hp; split; intros H; inversion H; subst.
    + constructor. exact Hp.
    + constructor.
    + congruence.
  - assert (Hcat : lang (Cat (deriv c a) b) s ->
                   lang (Cat a b) (c :: s)).
    { intros H. apply lang_cat_inv in H. destruct H as (u & t & -> & Hu & Ht).
      apply IHa in Hu. apply (lang_cat a b (c :: u) t Hu Ht). }
    assert (Hinv : lang (Cat a b) (c :: s) ->
                   lang (Cat (deriv c a) b) s
                   \/ (lang a [] /\ lang b (c :: s))).
    { intros H. apply lang_cat_inv in H. destruct H as (u & t & Heq & Hu & Ht).
      destruct u as [| c' u].
      - right. cbn in Heq. subst t. auto.
      - left. cbn in Heq. injection Heq as <- ->.
        apply lang_cat; [apply IHa, Hu | exact Ht]. }
    destruct (nullable a) eqn:Hn.
    + split.
      * intros H. apply lang_alt_inv in H. destruct H as [H | H]; [auto |].
        apply nullable_lang in Hn. apply IHb in H.
        apply (lang_cat a b [] (c :: s) Hn H).
      * intros H. destruct (Hinv H) as [H' | [_ H']].
        -- apply lang_alt_l, H'.
        -- apply lang_alt_r, IHb, H'.
    + split; [exact Hcat |].
      intros H. destruct (Hinv H) as [H' | [H' _]]; [exact H' |].
      apply nullable_lang in H'. congruence.
  - split; intros H.
    + apply lang_alt_inv in H. destruct H as [H | H];
        [apply lang_alt_l, IHa | apply lang_alt_r, IHb]; exact H.
    + apply lang_alt_inv in H. destruct H as [H | H];
        [apply lang_alt_l, IHa | apply lang_alt_r, IHb]; exact H.
  - split; intros H.
    + apply lang_cat_inv in H. destruct H as (u & t & -> & Hu & Ht).
      apply IHa in Hu. apply (lang_star_cons a c u t Hu Ht).
    + apply lang_star_inv in H. destruct H as (u & t & -> & Hu & Ht).
      apply lang_cat; [apply IHa, Hu | exact Ht].
Qed.

Lemma accepts_lang (r : regex) (s : jsstring) :
  accepts r s = true <-> lang r s.
Proof.
  revert r. induction s as [| c s IH]; intros r; cbn [accepts].
  - apply nullable_lang.
  - rewrite IH. apply deriv_lang.
Qed.

Lemma accepts_prefix_lang (r : regex) (s : jsstring) :
  accepts_prefix r s = true <-> exists s1 s2, s = s1 ++ s2 /\ lang r s1.
Proof.
  revert r. induction s as [| c s IH]; intros r; cbn [accepts_prefix];
    rewrite orb_true_iff, nullable_lang.
  - split.
    + intros [H | H]; [| discriminate]. exists [], []. auto.
    + intros (s1 & s2 & Heq & H). left.
      symmetry in Heq. apply app_eq_nil in Heq. destruct Heq as [-> _].
      exact H.
  - rewrite IH. split.
    + intros [H | (s1 & s2 & -> & H)].
      * exists [], (c :: s). auto.
      * exists (c :: s1), s2. split; [reflexivity |]. apply deriv_lang, H.
    + intros (s1 & s2 & Heq & H). destruct s1 as [| c' s1].
      * left. exact H.
      * right. cbn in Heq. injection Heq as <- ->.
        exists s1, s2. split; [reflexivity |]. apply deriv_lang, H.
Qed.

(** [p{n}] matches exactly the strings of [n] units that all satisfy [p]. *)
Lemma lang_times_class (p : N -> bool) (n : nat) (s : jsstring) :
  lang (Times n (Class p)) s <-> length s = n /\ forallb p s = true.
Proof.
  revert s. induction n as [| n IH]; intros s; cbn [Times].
  - split.
    + inversion 1. auto.
    + intros [Hl _]. destruct s; [constructor | discriminate].
  - split.
    + intros H. apply lang_cat_inv in H. destruct H as (u & t & -> & Hu & Ht).
      inversion Hu; subst. apply IH in Ht. destruct Ht as [Hl Hf].
      cbn. rewrite Hl, Hf, andb_true_r. auto.
    + intros [Hl Hf]. destruct s as [| c s]; [discriminate |].
      cbn in Hl, Hf. apply andb_true_iff in Hf. destruct Hf as [Hc Hf].
      apply (lang_cat (Class p) _ [c] s); [constructor; exact Hc |].
      apply IH. split; [lia | exact Hf].
Qed.

Lemma lang_class_inv (p : N -> bool) (s : jsstring) :
  lang (Class p) s <-> exists c, s = [c] /\ p c = true.
Proof.
  split.
  - inversion 1; subst. eauto.
  - intros (c & -> & H). constructor. exact H.
Qed.

(** [r+] starts with a match of [r]. *)
Lemma lang_plus_class_head (p : N -> bool) (s : jsstring) :
  lang (Plus (Class p)) s -> exists c s', s = c :: s' /\ p c = true.
Proof.
  unfold Plus. intros H. apply lang_cat_inv in H.
  destruct H as (u & t & -> & Hu & Ht). inversion Hu; subst. cbn. eauto.
Qed.

Lemma capture_from_sound (g r : regex) (taken rest t : jsstring) :
  capture_from g r taken rest = Some t ->
  exists rest', taken ++ rest = t ++ rest'
                /\ accepts g t = true /\ accepts_prefix r rest' = true.
Proof.
  revert taken. induction rest as [| c rest IH]; intros taken; cbn [capture_from].
  - destruct (accepts g taken && accepts_prefix r []) eqn:E; [| discriminate].
    intros [= <-]. apply andb_true_iff in E. exists []. tauto.
  - destruct (accepts g taken && accepts_prefix r (c :: rest)) eqn:E.
    + intros [= <-]. apply andb_true_iff in E. exists (c :: rest). tauto.
    + intros H. apply IH in H. destruct H as (rest' & Heq & H).
      exists rest'. split; [| exact H].
      rewrite <- Heq, <- app_assoc. reflexivity.
Qed.

Lemma capture_from_complete (g r : regex) (taken rest u rest' : jsstring) :
  rest = u ++ rest' ->
  accepts g (taken ++ u) = true -> accepts_prefix r rest' = true ->
  exists t, capture_from g r taken rest = Some t.
Proof.
  revert taken rest. induction u as [| c u IH]; intros taken rest -> Hg Hr.
  - rewrite app_nil_r in Hg. cbn [app].
    destruct rest'; cbn [capture_from]; rewrite Hg, Hr; eauto.
  - cbn [app capture_from].
    destruct (accepts g taken && accepts_prefix r (c :: u ++ rest'));
      [eauto |].
    apply (IH (taken ++ [c]) (u ++ rest') eq_refl); [| exact Hr].
    rewrite <- app_assoc. exact Hg.
Qed.

End RegexFacts.

(** ** Trimming and the token pattern *)

Section TokenPattern.

Lemma trimStart_head (s : jsstring) (c : N) (t : jsstring) :
  trimStart s = c :: t -> isTrimmable c = false.
Proof.
  induction s as [| d s IH]; cbn [trimStart]; [discriminate |].
  destruct (isTrimmable d) eqn:Hd; [exact IH |].
  intros [= <- _]. exact Hd.
Qed.

(** A trimmed string does not end with white space. *)
Lemma trim_last (raw pre : jsstring) (c : N) :
  trim raw = pre ++ [c] -> isTrimmable c = false.
Proof.
  unfold trim, trimEnd. intros H.
  apply (f_equal (@rev N)) in H. rewrite rev_involutive, rev_unit in H.
  exact (trimStart_head _ _ _ H).
Qed.

Lemma lang_token_whitespace (s : jsstring) :
  lang (Cat token_group whitespace) s <->
  exists tok c, s = tok ++ [c] /\ length tok = 8%nat
                /\ forallb isTokenChar tok = true /\ isTrimmable c = true.
Proof.
  unfold token_group, whitespace. split.
  - intros H. apply lang_cat_inv in H. destruct H as (u & t & -> & Hu & Ht).
    apply lang_times_class in Hu. apply lang_class_inv in Ht.
    destruct Ht as (c & -> & Hc). exists u, c. tauto.
  - intros (tok & c & -> & Hl & Hf & Hc). apply lang_cat.
    + apply lang_times_class. auto.
    + constructor. exact Hc.
Qed.

(** [tokenMatch] finds a token exactly when the text starts with eight
    token characters and one white-space character; the token is then
    the first eight code units. *)
Lemma tokenMatch_Some (text tok : jsstring) :
  tokenMatch text = Some tok <->
  exists c rest, text = tok ++ c :: rest /\ length tok = 8%nat
                 /\ forallb isTokenChar tok = true /\ isTrimmable c = true.
Proof.
  unfold tokenMatch, capture_prefix. split.
  - intros H. apply capture_from_sound in H.
    destruct H as (rest' & Heq & Hg & Hr). cbn [app] in Heq.
    apply accepts_lang, lang_times_class in Hg. destruct Hg as [Hl Hf].
    apply accepts_prefix_lang in Hr. destruct Hr as (s1 & s2 & -> & Hs1).
    apply lang_class_inv in Hs1. destruct Hs1 as (c & -> & Hc).
    exists c, s2. cbn [app] in Heq. auto.
  - intros (c & rest & -> & Hl & Hf & Hc).
    destruct (capture_from_complete token_group whitespace [] (tok ++ c :: rest)
                tok (c :: rest) eq_refl) as [t Ht].
    + apply accepts_lang, lang_times_class. auto.
    + apply accepts_prefix_lang. exists [c], rest. split; [reflexivity |].
      constructor. exact Hc.
    + rewrite Ht. f_equal.
      apply capture_from_sound in Ht. destruct Ht as (rest' & Heq & Hg & _).
      apply accepts_lang, lang_times_class in Hg. destruct Hg as [Hl' _].
      cbn [app] in Heq.
      destruct (app_inj_1 tok t (c :: rest) rest') as [-> _];
        [congruence | exact Heq | reflexivity].
Qed.

Lemma tokenMatch_None (text : jsstring) :
  tokenMatch text = None <->
  accepts_prefix (Cat token_group whitespace) text = false.
Proof.
  split.
  - intros H. destruct (accepts_prefix _ text) eqn:E; [| reflexivity].
    apply accepts_prefix_lang in E. destruct E as (s1 & s2 & -> & Hs1).
    apply lang_token_whitespace in Hs1.
    destruct Hs1 as (tok & c & -> & Hl & Hf & Hc).
    assert (Hm : tokenMatch ((tok ++ [c]) ++ s2) = Some tok).
    { apply tokenMatch_Some. exists c, s2. rewrite <- app_assoc. auto. }
    congruence.
  - intros H. destruct (tokenMatch text) as [tok |] eqn:E; [| reflexivity].
    apply tokenMatch_Some in E. destruct E as (c & rest & -> & Hl & Hf & Hc).
    assert (Hp : accepts_prefix (Cat token_group whitespace)
                   (tok ++ c :: rest) = true).
    { apply accepts_prefix_lang. exists (tok ++ [c]), rest.
      split; [rewrite <- app_assoc; reflexivity |].
      apply lang_token_whitespace. exists tok, c. auto. }
    congruence.
Qed.

(** After a token match on trimmed text, something follows the
    separator. *)
Lemma command_after_token (raw tok : jsstring) :
  tokenMatch (trim raw) = Some tok ->
  trim raw = tok ++ firstn 1 (skipn 8 (trim raw))
             ++ substring_from (trim raw) (length tok + 1)
  /\ tok = firstn 8 (trim raw)
  /\ truthy (substring_from (trim raw) (length tok + 1)) = true.
Proof.
  intros H. apply tokenMatch_Some in H.
  destruct H as (c & rest & Heq & Hl & Hf & Hc).
  assert (H8 : skipn 8 (tok ++ c :: rest) = c :: rest)
    by (rewrite <- Hl; apply drop_app_length).
  assert (H9 : skipn (8 + 1) (tok ++ c :: rest) = rest)
    by (rewrite <- drop_drop, H8; reflexivity).
  assert (H7 : firstn 8 (tok ++ c :: rest) = tok)
    by (rewrite <- Hl; apply take_app_length).
  unfold substring_from. rewrite Heq, Hl, H8, H9, H7. cbn [firstn app].
  split; [reflexivity |]. split; [reflexivity |].
  destruct rest as [| d rest]; [| reflexivity].
  assert (Ht : isTrimmable c = false) by exact (trim_last raw tok c Heq).
  congruence.
Qed.

End TokenPattern.

(** ** The [/claude] handler *)

Section Handler.

Local Arguments str : simpl never.

(** With a token match the handler calls the relay once and replies
    once, and the reply is not the one of the missing-command branch. *)
Lemma command_claude_token (this : SlackChannel) (raw : jsstring) (w : World)
  (tok : jsstring) :
  tokenMatch (trim raw) = Some tok ->
  exists reply w',
    command_claude this raw w = (Normal tt, w')
    /\ relayed (effects w')
       = relayed (effects w)
         ++ [(tok, substring_from (trim raw) (length tok + 1))]
    /\ bolt (effects w') = bolt (effects w) ++ [Ack; Say reply]
    /\ head reply <> head missing_command_reply
    /\ files w' = files w.
Proof.
  intros Hm. pose proof (command_after_token raw tok Hm) as (_ & _ & Hc).
  unfold command_claude. rewrite Hm.
  unfold mbind, JS_bind, ack. cbn beta iota. rewrite Hc. cbn [negb].
  unfold try_catch, handleCommand, mbind, JS_bind, logger, relayCommand,
    say, throw.
  cbn beta iota zeta. world_simpl.
  destruct (tape_next (relay (ambient w))) as [r | e].
  - destruct (success r); [destruct (result_session r) |];
      world_simpl; eexists _, _; (split; [reflexivity |]); world_simpl;
      rewrite <- !app_assoc;
      (split; [reflexivity | split; [reflexivity | split;
         [discriminate | reflexivity]]]).
  - world_simpl. eexists _, _; (split; [reflexivity |]); world_simpl;
      rewrite <- !app_assoc;
      (split; [reflexivity | split; [reflexivity | split;
         [discriminate | reflexivity]]]).
Qed.

(** Without a token match the handler acknowledges, replies with the
    format error and does nothing else. *)
Lemma command_claude_no_token (this : SlackChannel) (raw : jsstring)
  (w : World) :
  tokenMatch (trim raw) = None ->
  command_claude this raw w
  = (Normal tt,
     with_effects
       (bolt_entry (Say invalid_format_reply) (bolt_entry Ack (effects w)))
       w).
Proof.
  intros Hm. unfold command_claude. rewrite Hm. reflexivity.
Qed.

(** Every text matched by the pattern of the specification starts with
    a token and a white-space character. *)
Lemma spec_pattern_has_token_prefix (text : jsstring) :
  matches_spec_pattern text = true ->
  accepts_prefix (Cat token_group whitespace) text = true.
Proof.
  unfold matches_spec_pattern, spec_pattern. intros H.
  apply accepts_lang, lang_cat_inv in H.
  destruct H as (tok & t & -> & Htok & Ht).
  apply lang_cat_inv in Ht. destruct Ht as (ws & cmd & -> & Hws & _).
  apply lang_plus_class_head in Hws. destruct Hws as (c & ws' & -> & Hc).
  apply accepts_prefix_lang. exists (tok ++ [c]), (ws' ++ cmd).
  split; [rewrite <- !app_assoc; reflexivity |].
  apply lang_cat; [exact Htok | constructor; exact Hc].
Qed.

(** C10: when the trimmed text matches [/^([A-Z0-9]{8})\s/], the text
    after the token and one separator is not empty; hence the handler
    never gives the reply of its second rejection branch ("include a
    command after the token"): on every input it acknowledges and gives
    exactly one reply, which is a different one. *)
Theorem missing_command_branch_unreachable (this : SlackChannel)
  (raw : jsstring) (w : World) :
  (forall tok, tokenMatch (trim raw) = Some tok ->
               truthy (substring_from (trim raw) (length tok + 1)) = true)
  /\ exists reply w',
       command_claude this raw w = (Normal tt, w')
       /\ bolt (effects w') = bolt (effects w) ++ [Ack; Say reply]
       /\ reply <> missing_command_reply.
Proof.
  split.
  - intros tok Hm. apply (command_after_token raw tok Hm).
  - destruct (tokenMatch (trim raw)) as [tok |] eqn:Hm.
    + destruct (command_claude_token this raw w tok Hm)
        as (reply & w' & Hrun & _ & Hbolt & Hne & _).
      exists reply, w'. split; [exact Hrun |]. split; [exact Hbolt |].
      congruence.
    + exists invalid_format_reply. eexists.
      split; [apply command_claude_no_token, Hm |].
      world_simpl. rewrite <- app_assoc. split; [reflexivity |].
      intros Heq. apply (f_equal (@length N)) in Heq.
      vm_compute in Heq. discriminate Heq.
Qed.

Lemma missing_command_branch_unreachable_witness :
  truthy (substring_from (trim (str "  AB12CD34 ls "))
            (length (str "AB12CD34") + 1)) = true.
Proof.
  apply (proj1 (missing_command_branch_unreachable
                  sample_channel (str "  AB12CD34 ls ")
                  (sample_world 0 PostResolved))
               (str "AB12CD34")).
  vm_compute. reflexivity.
Defined.

(** C4, as the code has it: the handler calls the relay exactly when the
    trimmed text starts with eight characters of [A-Z0-9] followed by a
    white-space character ([/^([A-Z0-9]{8})\s/]); it then passes the
    first eight code units as the token and the text after the separator,
    which is not empty, as the command; otherwise it acknowledges,
    replies with the format error and does not call the relay.  Every
    text that matches [^[A-Z0-9]{8}\s+.+$] is relayed. *)
Theorem command_claude_relays_on_token_prefix (this : SlackChannel)
  (raw : jsstring) (w : World) :
  let text := trim raw in
  (accepts_prefix (Cat token_group whitespace) text = true ->
   relayed (effects (command_claude this raw w).2)
   = relayed (effects w) ++ [(firstn 8 text, substring_from text 9)]
   /\ accepts token_group (firstn 8 text) = true
   /\ substring_from text 9 <> [])
  /\ (accepts_prefix (Cat token_group whitespace) text = false ->
      command_claude this raw w
      = (Normal tt,
         with_effects
           (bolt_entry (Say invalid_format_reply)
                       (bolt_entry Ack (effects w))) w)
      /\ relayed (effects (command_claude this raw w).2)
         = relayed (effects w))
  /\ (matches_spec_pattern text = true ->
      accepts_prefix (Cat token_group whitespace) text = true).
Proof.
  cbv zeta. split; [| split].
  - intros Hp. destruct (tokenMatch (trim raw)) as [tok |] eqn:Hm.
    + destruct (command_claude_token this raw w tok Hm)
        as (reply & w' & Hrun & Hrel & _).
      destruct (command_after_token raw tok Hm) as (_ & Htok & Hc).
      pose proof Hm as Hs. apply tokenMatch_Some in Hs.
      destruct Hs as (c & rest & _ & Hl & Hf & _).
      rewrite Hrun. cbn [snd]. rewrite Hrel, Hl, <- Htok. cbn [Nat.add].
      rewrite Hl in Hc. cbn [Nat.add] in Hc.
      split; [reflexivity |]. split.
      * apply accepts_lang, lang_times_class. auto.
      * intros Heq. rewrite Heq in Hc. discriminate Hc.
    + apply tokenMatch_None in Hm. congruence.
  - intros Hp. apply tokenMatch_None in Hp.
    rewrite (command_claude_no_token this raw w Hp). auto.
  - apply spec_pattern_has_token_prefix.
Qed.

Lemma command_claude_relays_on_token_prefix_witness :
  relayed (effects (command_claude sample_channel (str " AB12CD34 git status")
                      (sample_world 0 PostResolved)).2)
  = [(str "AB12CD34", str "git status")]
  /\ relayed (effects (command_claude sample_channel (str "ab12cd34 git status")
                         (sample_world 0 PostResolved)).2)
     = [].
Proof.
  split.
  - destruct (command_claude_relays_on_token_prefix sample_channel
                (str " AB12CD34 git status") (sample_world 0 PostResolved))
      as (Hyes & _ & _).
    destruct Hyes as (Hrel & _ & _); [vm_compute; reflexivity |].
    rewrite Hrel. vm_compute. reflexivity.
  - destruct (command_claude_relays_on_token_prefix sample_channel
                (str "ab12cd34 git status") (sample_world 0 PostResolved))
      as (_ & Hno & _).
    destruct Hno as (_ & Hrel); [vm_compute; reflexivity |].
    rewrite Hrel. reflexivity.
Defined.

(** C4 as stated fails: a command that continues on a second line does
    not match [^[A-Z0-9]{8}\s+.+$], yet the handler relays it. *)
Lemma multiline_command_reaches_relay :
  let raw := str "ABCDEFGH foo" ++ [10] ++ str "bar" in
  matches_spec_pattern (trim raw) = false
  /\ relayed (effects (command_claude sample_channel raw
                         (sample_world 0 PostResolved)).2)
     = [(str "ABCDEFGH", str "foo" ++ [10] ++ str "bar")].
Proof. vm_compute. split; reflexivity. Qed.

End Handler.

(** ** Token generation *)

Section TokenGeneration.

Local Arguments str : simpl never.

Lemma chars_length : Z.of_nat (length chars) = 36%Z.
Proof. reflexivity. Qed.

Lemma chars_index (i : Z) :
  (0 <= i < 36)%Z ->
  exists c, nth_error chars (Z.to_nat i) = Some c /\ isTokenChar c = true.
Proof.
  intros Hi. assert (Hn : (Z.to_nat i < 36)%nat) by lia.
  set (n := Z.to_nat i) in *. clearbody n. clear Hi.
  do 36 (destruct n as [| n]; [eexists; split; vm_compute; reflexivity |]).
  lia.
Qed.

(** One round of the loop appends one character of [A-Z0-9]. *)
Lemma token_char_of_draw (r : number) :
  unit_interval r = true ->
  exists c,
    charAt chars (Math_floor (mul r (Number_of_Z (Z.of_nat (length chars)))))
    = [c]
    /\ isTokenChar c = true.
Proof.
  intros Hr. rewrite chars_length. unfold charAt, mul.
  destruct (random_index_range r Hr) as (i & -> & Hi).
  rewrite chars_length.
  replace ((i <? 0)%Z || (36 <=? i)%Z) with false
    by (symmetry; apply orb_false_iff; split;
        [apply Z.ltb_ge | apply Z.leb_gt]; lia).
  destruct (chars_index i Hi) as (c & -> & Hc). eauto.
Qed.

Lemma token_from_shape (draw : nat -> number) (k pos : nat) (tok : jsstring) :
  (forall j, unit_interval (draw j) = true) ->
  exists suffix,
    token_from draw pos k tok = tok ++ suffix
    /\ length suffix = k /\ forallb isTokenChar suffix = true.
Proof.
  intros Hd. revert pos tok. induction k as [| k IH]; intros pos tok.
  - exists []. rewrite app_nil_r. auto.
  - cbn [token_from].
    destruct (token_char_of_draw (draw pos) (Hd pos)) as (c & -> & Hc).
    destruct (IH (S pos) (tok ++ [c])) as (suffix & -> & Hl & Hf).
    exists (c :: suffix). rewrite <- app_assoc. cbn [app length forallb].
    rewrite Hl, Hc, Hf. auto.
Qed.

Lemma generate_loop_run (k : nat) (tok : jsstring) (w : World) :
  for_loop k
    (fun tok =>
       r ← Math_random;
       mret (tok ++ charAt chars
                      (Math_floor (mul r (Number_of_Z (Z.of_nat (length chars)))))))
    tok w
  = (Normal (token_from (tape_at (random (ambient w)))
               (tape_pos (random (ambient w))) k tok),
     with_ambient (Nat.iter k advance_random (ambient w)) w).
Proof.
  revert tok w. induction k as [| k IH]; intros tok w.
  - destruct w. reflexivity.
  - cbn [for_loop]. unfold mbind at 1, JS_bind at 1.
    unfold mbind at 1, JS_bind at 1, Math_random, mret, JS_ret.
    rewrite IH. world_simpl. cbn [token_from].
    rewrite <- Nat.iter_succ_r. reflexivity.
Qed.

(** The token is a function of the random draws alone. *)
Lemma generateToken_run (w : World) :
  _generateToken w
  = (Normal (token_from (tape_at (random (ambient w)))
               (tape_pos (random (ambient w))) 8 []),
     with_ambient (Nat.iter 8 advance_random (ambient w)) w).
Proof. apply generate_loop_run. Qed.

(** C3: for every sequence of draws of [Math.random], the generated
    token has exactly 8 characters, all of them in [A-Z0-9]: it matches
    [^[A-Z0-9]{8}$]. *)
Theorem generateToken_shape (w : World) :
  draws_in_unit_interval w ->
  exists tok w',
    _generateToken w = (Normal tok, w')
    /\ length tok = 8%nat
    /\ forallb isTokenChar tok = true
    /\ accepts token_group tok = true.
Proof.
  intros Hd. rewrite generateToken_run.
  destruct (token_from_shape (tape_at (random (ambient w)))
              8 (tape_pos (random (ambient w))) [] Hd)
    as (suffix & -> & Hl & Hf).
  cbn [app]. eexists _, _. split; [reflexivity |].
  split; [exact Hl |]. split; [exact Hf |].
  apply accepts_lang, lang_times_class. auto.
Qed.

Lemma generateToken_shape_witness :
  exists tok w',
    _generateToken (sample_world 0 PostResolved) = (Normal tok, w')
    /\ length tok = 8%nat
    /\ forallb isTokenChar tok = true
    /\ accepts token_group tok = true.
Proof.
  apply generateToken_shape. intros k. vm_compute. reflexivity.
Defined.

End TokenGeneration.

(** ** Session records *)

Section Sessions.

Local Arguments str : simpl never.

Lemma getCurrentTmuxSession_run (w : World) :
  _getCurrentTmuxSession w
  = (Normal (current_context (tape_next (tmux (ambient w)))),
     with_ambient (advance_tmux (ambient w)) w).
Proof.
  unfold _getCurrentTmuxSession, try_catch, mbind, JS_bind,
    execSync_tmux_display_message, current_context.
  destruct (tape_next (tmux (ambient w))); reflexivity.
Qed.

(** C5: the query of the current tmux session never throws.  It returns
    the trimmed output of tmux when that is not empty, and null when the
    tmux command fails or prints nothing but white space. *)
Theorem getCurrentTmuxSession_never_throws (w : World) :
  exists r w',
    _getCurrentTmuxSession w = (Normal r, w')
    /\ match r with
       | Some name =>
           name <> []
           /\ exists out, tape_next (tmux (ambient w)) = ExecStdout out
                          /\ name = trim out
       | None =>
           (exists e, tape_next (tmux (ambient w)) = ExecFails e)
           \/ (exists out, tape_next (tmux (ambient w)) = ExecStdout out
                           /\ trim out = [])
       end.
Proof.
  rewrite getCurrentTmuxSession_run. eexists _, _. split; [reflexivity |].
  unfold current_context.
  destruct (tape_next (tmux (ambient w))) as [out | e]; [| eauto].
  destruct (trim out) as [| c t] eqn:Ht; cbn [truthy].
  - right. exists out. auto.
  - split; [discriminate |]. exists out. auto.
Qed.

Lemma removeSession_run (this : SlackChannel) (sid : jsstring) (w : World) :
  _removeSession this sid w
  = (Normal tt,
     match files w !! sessionFile this sid with
     | Some _ =>
         with_effects
           (log_entry LogDebug [str "Session removed: " ++ sid] (effects w))
           (with_files (delete (sessionFile this sid) (files w)) w)
     | None => w
     end).
Proof.
  unfold _removeSession, mbind, JS_bind, existsSync, unlinkSync, logger.
  destruct (files w !! sessionFile this sid) as [s |] eqn:Hf.
  - rewrite bool_decide_true by eauto. rewrite Hf. reflexivity.
  - rewrite bool_decide_false by (intros [? ?]; discriminate).
    reflexivity.
Qed.

Lemma removeSession_files (this : SlackChannel) (sid : jsstring) (w : World) :
  files (_removeSession this sid w).2 = delete (sessionFile this sid) (files w).
Proof.
  rewrite removeSession_run. cbn [snd].
  destruct (files w !! sessionFile this sid) eqn:Hf; world_simpl.
  - reflexivity.
  - symmetry. apply delete_id. exact Hf.
Qed.

(** C7: removing a session never throws; a second removal of the same
    id changes nothing; and the removal of an id that has no record
    leaves the world as it was. *)
Theorem removeSession_idempotent (this : SlackChannel) (sid : jsstring)
  (w : World) :
  let once := (_removeSession this sid w).2 in
  (_removeSession this sid w).1 = Normal tt
  /\ _removeSession this sid once = (Normal tt, once)
  /\ files once = delete (sessionFile this sid) (files w)
  /\ (files w !! sessionFile this sid = None ->
      _removeSession this sid w = (Normal tt, w)).
Proof.
  cbv zeta. split; [rewrite removeSession_run; reflexivity |].
  split; [| split; [apply removeSession_files |]].
  - rewrite (removeSession_run this sid (_removeSession this sid w).2).
    rewrite removeSession_files, lookup_delete_eq. reflexivity.
  - intros Hf. rewrite removeSession_run, Hf. reflexivity.
Qed.

Lemma removeSession_idempotent_witness :
  _removeSession sample_channel (str "a") (sample_world 0 PostResolved)
  = (Normal tt, sample_world 0 PostResolved).
Proof.
  apply (removeSession_idempotent sample_channel (str "a")
           (sample_world 0 PostResolved)).
  reflexivity.
Defined.


Lemma createSession_run (this : SlackChannel) (n : Notification)
  (tok : jsstring) (w : World) :
  exists a',
    let n' := with_conversation (current_context (tape_next (tmux (ambient w))))
                (tape_next (monitor (ambient w))) n in
    let s := session_object (next_uuid w) tok
               (tape_next (clock (ambient w)))
               (tape_next (tape_advance (clock (ambient w)))) n' in
    _createSession this n tok w
    = (Normal (next_uuid w, n'),
       with_effects
         (log_entry LogDebug [str "Session created: " ++ next_uuid w] (effects w))
         (with_files (<[sessionFile this (next_uuid w) := s]> (files w))
            (with_ambient a' w)))
    /\ slack a' = slack (ambient w)
    /\ random a' = random (ambient w)
    /\ relay a' = relay (ambient w)
    /\ uuid a' = tape_advance (uuid (ambient w))
    /\ clock a' = tape_advance (tape_advance (clock (ambient w)))
    /\ tmux a' = tape_advance (tmux (ambient w)).
Proof.
  unfold _createSession. unfold mbind at 1, JS_bind at 1, uuidv4.
  unfold mbind at 1, JS_bind at 1. rewrite getCurrentTmuxSession_run.
  world_simpl. cbn [tmux advance_uuid].
  unfold next_uuid, with_conversation.
  destruct (current_context (tape_next (tmux (ambient w)))) as [name |];
    [destruct (metadata n) as [md |] eqn:Hmd |];
    eexists; (split; [reflexivity |]); cbn; auto 10.
Qed.

Lemma bind_run {A B} (c : JS A) (k : A -> JS B) (w : World) (a : A)
  (w' : World) :
  c w = (Normal a, w') -> (c ≫= k) w = k a w'.
Proof. intros H. unfold mbind, JS_bind. rewrite H. reflexivity. Qed.

Lemma try_catch_normal {A} (body : JS A) (handler : Error -> JS A)
  (w : World) (a : A) (w' : World) :
  body w = (Normal a, w') -> try_catch body handler w = (Normal a, w').
Proof. intros H. unfold try_catch. rewrite H. reflexivity. Qed.

Lemma try_catch_throw {A} (body : JS A) (handler : Error -> JS A)
  (w : World) (e : Error) (w' : World) :
  body w = (Throw e, w') -> try_catch body handler w = handler e w'.
Proof. intros H. unfold try_catch. rewrite H. reflexivity. Qed.

Lemma bind_throw {A B} (c : JS A) (k : A -> JS B) (w : World) (e : Error)
  (w' : World) :
  c w = (Throw e, w') -> (c ≫= k) w = (Throw e, w').
Proof. intros H. unfold mbind, JS_bind. rewrite H. reflexivity. Qed.

(** What a send does once the channel is configured. *)
Lemma sendImpl_run (this : SlackChannel) (n : Notification) (w : World) :
  is_set (botToken this) = true -> is_set (channelId this) = true ->
  let tok := token_from (tape_at (random (ambient w)))
               (tape_pos (random (ambient w))) 8 [] in
  let n' := with_conversation (current_context (tape_next (tmux (ambient w))))
              (tape_next (monitor (ambient w))) n in
  let s := session_object (next_uuid w) tok
             (tape_next (clock (ambient w)))
             (tape_next (tape_advance (clock (ambient w)))) n' in
  exists w',
    match tape_next (slack (ambient w)) with
    | PostResolved =>
        _sendImpl this n w = (Normal true, w')
        /\ files w' = <[sessionFile this (next_uuid w) := s]> (files w)
        /\ posted (effects w')
           = posted (effects w)
             ++ [(channelId this, _generateSlackMessage n' tok)]
        /\ logged (effects w')
           = logged (effects w)
             ++ [(LogDebug, [str "Session created: " ++ next_uuid w]);
                 (LogInfo, [str "Slack message sent successfully, Session: "
                         ++ next_uuid w])]
    | PostRejected e =>
        _sendImpl this n w = (Normal false, w')
        /\ files w' = delete (sessionFile this (next_uuid w)) (files w)
        /\ posted (effects w') = posted (effects w)
    end.
Proof.
  intros Hb Hc. cbv zeta. unfold _sendImpl.
  rewrite (bind_run (validateConfig this) _ w true w)
    by (unfold validateConfig, _validateConfig; rewrite Hb, Hc; reflexivity).
  cbn [negb].
  rewrite (bind_run _generateToken _ w _ _ (generateToken_run w)).
  set (w1 := with_ambient (Nat.iter 8 advance_random (ambient w)) w).
  destruct (createSession_run this n
              (token_from (tape_at (random (ambient w)))
                 (tape_pos (random (ambient w))) 8 []) w1)
    as (a' & Hrun & Hslack & _).
  cbv zeta in Hrun.
  change (next_uuid w1) with (next_uuid w) in *.
  change (tape_next (tmux (ambient w1))) with (tape_next (tmux (ambient w))) in *.
  change (tape_next (monitor (ambient w1)))
    with (tape_next (monitor (ambient w))) in *.
  change (clock (ambient w1)) with (clock (ambient w)) in *.
  change (files w1) with (files w) in *.
  change (effects w1) with (effects w) in *.
  change (slack (ambient w1)) with (slack (ambient w)) in Hslack.
  rewrite (bind_run _ _ _ _ _ Hrun). cbn [fst snd].
  set (w2 := with_effects _ _) in *.
  assert (Hnext : tape_next (slack (ambient w2)) = tape_next (slack (ambient w)))
    by (unfold w2; world_simpl; rewrite Hslack; reflexivity).
  destruct (tape_next (slack (ambient w))) as [| e] eqn:Hpost.
  - eexists. split.
    + apply try_catch_normal.
      erewrite bind_run;
        [| unfold chat_postMessage; rewrite Hnext; reflexivity].
      reflexivity.
    + unfold w2. world_simpl. rewrite <- app_assoc. auto.
  - eexists. split.
    + erewrite try_catch_throw;
        [| apply bind_throw; unfold chat_postMessage; rewrite Hnext;
           reflexivity].
      erewrite bind_run; [| reflexivity].
      erewrite bind_run; [| apply removeSession_run].
      reflexivity.
    + unfold w2. world_simpl. rewrite lookup_insert_eq. world_simpl.
      rewrite delete_insert_eq. auto.
Qed.

(** C6: when the post to Slack is rejected after the session file was
    written, the send returns false and the file of the session just
    created is gone; the directory is left as it was, without the file
    of that id, and nothing was posted. *)
Theorem sendImpl_rolls_back (this : SlackChannel) (n : Notification)
  (w : World) (e : Error) :
  is_set (botToken this) = true -> is_set (channelId this) = true ->
  tape_next (slack (ambient w)) = PostRejected e ->
  exists w',
    _sendImpl this n w = (Normal false, w')
    /\ files w' !! sessionFile this (next_uuid w) = None
    /\ files w' = delete (sessionFile this (next_uuid w)) (files w)
    /\ posted (effects w') = posted (effects w).
Proof.
  intros Hb Hc Hpost.
  destruct (sendImpl_run this n w Hb Hc) as (w' & Hrun).
  rewrite Hpost in Hrun. destruct Hrun as (Hrun & Hfiles & Hposted).
  exists w'. split; [exact Hrun |]. split; [| auto].
  rewrite Hfiles. apply lookup_delete_eq.
Qed.

Lemma sendImpl_rolls_back_witness :
  exists w',
    _sendImpl sample_channel sample_notification
      (sample_world 0 (PostRejected {| error_message := str "channel_not_found" |}))
    = (Normal false, w')
    /\ files w' !! sessionFile sample_channel (str "a") = None
    /\ files w' = delete (sessionFile sample_channel (str "a")) ∅
    /\ posted (effects w') = [].
Proof.
  apply (sendImpl_rolls_back sample_channel sample_notification
           (sample_world 0 (PostRejected {| error_message := str "channel_not_found" |}))
           {| error_message := str "channel_not_found" |});
    reflexivity.
Defined.

(** C8: when the tmux query yields null and the notification carries no
    tmux session in its metadata, the persisted record has
    [tmuxSession = 'default']. *)
Theorem createSession_default_context (this : SlackChannel)
  (n : Notification) (tok : jsstring) (w : World) :
  (_getCurrentTmuxSession w).1 = Normal None ->
  is_set (metadata_context n) = false ->
  exists sid n' w' s,
    _createSession this n tok w = (Normal (sid, n'), w')
    /\ files w' !! sessionFile this sid = Some s
    /\ tmuxSession s = str "default".
Proof.
  intros Hq Hmd. rewrite getCurrentTmuxSession_run in Hq. cbn [fst] in Hq.
  injection Hq as Hq.
  destruct (createSession_run this n tok w) as (a' & Hrun & _).
  cbv zeta in Hrun. rewrite Hq in Hrun.
  eexists _, _, _, _. split; [exact Hrun |]. world_simpl.
  split; [apply lookup_insert_eq |].
  unfold session_object, with_conversation. cbn [tmuxSession].
  unfold or_else. unfold is_set in Hmd.
  destruct (metadata_context n) as [ctx |]; [| reflexivity].
  rewrite Hmd. reflexivity.
Qed.

Lemma createSession_default_context_witness :
  exists sid n' w' s,
    _createSession sample_channel sample_notification (str "AB12CD34")
      (sample_world 0 PostResolved) = (Normal (sid, n'), w')
    /\ files w' !! sessionFile sample_channel sid = Some s
    /\ tmuxSession s = str "default".
Proof.
  apply createSession_default_context; reflexivity.
Defined.

Lemma message_contains_token (n : Notification) (tok : jsstring) :
  exists before,
    _generateSlackMessage n tok
    = before ++ str "To send a new command, use: `/claude " ++ tok
      ++ str " <your command>`".
Proof.
  unfold _generateSlackMessage. cbv zeta.
  eexists. repeat rewrite app_assoc. reflexivity.
Qed.

(** C9, as the code has it: a successful send returns only [true].  The
    token reaches the user inside the text posted to Slack, the session
    id is written to the log, and [_createSession] returns the session
    id, under which the record is stored. *)
Theorem sendImpl_returns_true (this : SlackChannel) (n : Notification)
  (w : World) :
  is_set (botToken this) = true -> is_set (channelId this) = true ->
  tape_next (slack (ambient w)) = PostResolved ->
  exists w' s text before,
    _sendImpl this n w = (Normal true, w')
    /\ files w' !! sessionFile this (id s) = Some s
    /\ id s = next_uuid w
    /\ posted (effects w') = posted (effects w) ++ [(channelId this, text)]
    /\ text = before ++ str "To send a new command, use: `/claude "
              ++ token s ++ str " <your command>`"
    /\ logged (effects w')
       = logged (effects w)
         ++ [(LogDebug, [str "Session created: " ++ id s]);
             (LogInfo, [str "Slack message sent successfully, Session: "
                     ++ id s])]
    /\ forall tok w0, exists n0,
         (_createSession this n tok w0).1 = Normal (next_uuid w0, n0).
Proof.
  intros Hb Hc Hpost.
  destruct (sendImpl_run this n w Hb Hc) as (w' & Hrun).
  rewrite Hpost in Hrun.
  destruct Hrun as (Hrun & Hfiles & Hposted & Hlogged).
  match type of Hposted with
  | context [_generateSlackMessage ?n' ?tok] =>
      destruct (message_contains_token n' tok) as (before & Hmsg)
  end.
  eexists w', _, _, before. split; [exact Hrun |].
  split; [rewrite Hfiles; apply lookup_insert_eq |].
  split; [reflexivity |]. split; [exact Hposted |].
  split; [exact Hmsg |]. split; [exact Hlogged |].
  intros tok w0. destruct (createSession_run this n tok w0) as (a' & Hc0 & _).
  cbv zeta in Hc0. rewrite Hc0. eauto.
Qed.

Lemma sendImpl_returns_true_witness :
  exists w' s text before,
    _sendImpl sample_channel sample_notification (sample_world 0 PostResolved)
    = (Normal true, w')
    /\ files w' !! sessionFile sample_channel (id s) = Some s
    /\ id s = str "a"
    /\ posted (effects w') = [(Some (str "C0123"), text)]
    /\ text = before ++ str "To send a new command, use: `/claude "
              ++ token s ++ str " <your command>`"
    /\ logged (effects w')
       = [(LogDebug, [str "Session created: " ++ id s]);
          (LogInfo, [str "Slack message sent successfully, Session: "
                  ++ id s])]
    /\ forall tok w0, exists n0,
         (_createSession sample_channel sample_notification tok w0).1
         = Normal (next_uuid w0, n0).
Proof.
  apply (sendImpl_returns_true sample_channel sample_notification
           (sample_world 0 PostResolved)); reflexivity.
Defined.

(** C9 as stated fails: two successful sends that create sessions with
    different tokens and different ids return the same value, so the
    value returned carries neither. *)
Lemma sendImpl_returns_no_credentials : ~ returns_token_and_id _sendImpl.
Proof.
  intros (decode & Hd).
  destruct (sendImpl_run sample_channel sample_notification
              (sample_world 0 PostResolved) eq_refl eq_refl)
    as (wa & Ha & Hfa & _).
  destruct (sendImpl_run sample_channel sample_notification
              (redrawn one_half (sample_world 0 PostResolved))
              eq_refl eq_refl)
    as (wb & Hb & Hfb & _).
  cbv zeta in Hfa, Hfb.
  pose proof (Hd _ _ _ _ _ _ Ha ltac:(rewrite Hfa; apply lookup_insert_eq))
    as Ea.
  pose proof (Hd _ _ _ _ _ _ Hb ltac:(rewrite Hfb; apply lookup_insert_eq))
    as Eb.
  rewrite Ea in Eb. vm_compute in Eb. discriminate Eb.
Qed.

Lemma generateToken_ignores_files (w : World) (dir : gmap (list N) Session) :
  (_generateToken (with_files dir w)).1 = (_generateToken w).1
  /\ files (_generateToken w).2 = files w.
Proof. rewrite !generateToken_run. split; reflexivity. Qed.

Lemma sample_world_files (tick : Z) (answer : PostResult) :
  files (sample_world tick answer) = ∅.
Proof. reflexivity. Qed.

Lemma live_tokens_unique_empty (now : Z) : live_tokens_unique now ∅.
Proof.
  intros f1 f2 s1 s2 H1. rewrite lookup_empty in H1. discriminate H1.
Qed.

Lemma insert_keeps_live_tokens_unique (now : Z) (dir : gmap (list N) Session)
  (f : list N) (s : Session) :
  live_tokens_unique now dir ->
  (forall g r, dir !! g = Some r -> live now r = true -> token r <> token s) ->
  live_tokens_unique now (<[f := s]> dir).
Proof.
  intros Hu Hfresh f1 f2 s1 s2 H1 H2 L1 L2 Ht.
  destruct (decide (f = f1)) as [<- | N1];
    destruct (decide (f = f2)) as [<- | N2]; [reflexivity | | |].
  - rewrite lookup_insert_eq in H1. injection H1 as <-.
    rewrite lookup_insert_ne in H2 by exact N2.
    destruct (Hfresh f2 s2 H2 L2). congruence.
  - rewrite lookup_insert_eq in H2. injection H2 as <-.
    rewrite lookup_insert_ne in H1 by exact N1.
    destruct (Hfresh f1 s1 H1 L1). congruence.
  - rewrite lookup_insert_ne in H1 by exact N1.
    rewrite lookup_insert_ne in H2 by exact N2.
    exact (Hu f1 f2 s1 s2 H1 H2 L1 L2 Ht).
Qed.

Lemma sessionFile_inj (this : SlackChannel) (a b : jsstring) :
  sessionFile this a = sessionFile this b -> a = b.
Proof.
  unfold sessionFile. intros H.
  apply app_inv_head in H. apply app_inv_head in H.
  apply app_inv_tail in H. exact H.
Qed.

(** Two live records with one token under two files. *)
Lemma shared_token_not_unique (now : Z) (dir : gmap (list N) Session)
  (f1 f2 : list N) (s1 s2 : Session) :
  dir !! f1 = Some s1 -> dir !! f2 = Some s2 -> f1 <> f2 ->
  live now s1 = true -> live now s2 = true -> token s1 = token s2 ->
  ~ live_tokens_unique now dir.
Proof.
  intros H1 H2 Hne L1 L2 Ht Hu. exact (Hne (Hu f1 f2 s1 s2 H1 H2 L1 L2 Ht)).
Qed.

(** C1, as the code has it: the candidate token is never checked
    against the store, and a collision neither fails the creation nor
    draws a new token.  The token is computed from the random draws
    alone; [_createSession] writes the record with the candidate under
    the new session id whatever the directory holds, leaving every other
    file as it was; and a successful send persists exactly the record
    with the token it generated.  So when the candidate equals the token
    of a live record stored under another id, the directory holds two
    live records with that token after the send: this is what happens
    when the draws of two successful sends repeat, their ids differ and
    both records are live.  Live tokens stay unique after a send when
    the candidate differs from the token of every live record. *)
Theorem send_persists_unchecked_token (this : SlackChannel)
  (n : Notification) (w : World) :
  (forall dir, (_generateToken (with_files dir w)).1 = (_generateToken w).1)
  /\ (forall candidate, exists sid n' s w',
        _createSession this n candidate w = (Normal (sid, n'), w')
        /\ files w' = <[sessionFile this sid := s]> (files w)
        /\ token s = candidate)
  /\ (is_set (botToken this) = true -> is_set (channelId this) = true ->
      tape_next (slack (ambient w)) = PostResolved ->
      exists s w',
        _sendImpl this n w = (Normal true, w')
        /\ (_generateToken w).1 = Normal (token s)
        /\ files w' = <[sessionFile this (next_uuid w) := s]> (files w)
        /\ (forall now g r,
              files w !! g = Some r ->
              g <> sessionFile this (next_uuid w) ->
              token r = token s ->
              live now r = true -> live now s = true ->
              ~ live_tokens_unique now (files w'))
        /\ (forall now n2,
              (_generateToken w').1 = (_generateToken w).1 ->
              next_uuid w' <> next_uuid w ->
              tape_next (slack (ambient w')) = PostResolved ->
              live now s = true ->
              (now <= tape_next (tape_advance (clock (ambient w')))
                      + 86400000)%Z ->
              ~ live_tokens_unique now (files (_sendImpl this n2 w').2))
        /\ (forall now,
              live_tokens_unique now (files w) ->
              (forall g r, files w !! g = Some r -> live now r = true ->
                           token r <> token s) ->
              live_tokens_unique now (files w'))).
Proof.
  split; [intros dir; apply generateToken_ignores_files |]. split.
  - intros candidate.
    destruct (createSession_run this n candidate w) as (a' & Hrun & _).
    cbv zeta in Hrun. eexists _, _, _, _. split; [exact Hrun |].
    world_simpl. auto.
  - intros Hb Hc Hpost.
    destruct (sendImpl_run this n w Hb Hc) as (w' & Hrun).
    rewrite Hpost in Hrun. destruct Hrun as (Hrun & Hfiles & _).
    match type of Hfiles with
    | _ = <[_ := ?s]> _ => exists s, w'
    end.
    split; [exact Hrun |].
    split; [rewrite generateToken_run; reflexivity |].
    split; [exact Hfiles |]. split; [| split].
    + intros now g r Hg Hne Htok Lr Ls.
      eapply (shared_token_not_unique now (files w') g
                (sessionFile this (next_uuid w)) r); try eassumption.
      * rewrite Hfiles. rewrite lookup_insert_ne by congruence. exact Hg.
      * rewrite Hfiles. apply lookup_insert_eq.
    + intros now n2 Hsame Hid Hpost2 Ls Lnow.
      destruct (sendImpl_run this n2 w' Hb Hc) as (w2 & Hrun2).
      rewrite Hpost2 in Hrun2. destruct Hrun2 as (Hrun2 & Hfiles2 & _).
      rewrite Hrun2. cbn [snd].
      rewrite !generateToken_run in Hsame. cbn [fst] in Hsame.
      injection Hsame as Hsame.
      assert (Hfile : sessionFile this (next_uuid w)
                      <> sessionFile this (next_uuid w')).
      { intros Heq. apply sessionFile_inj in Heq. congruence. }
      eapply (shared_token_not_unique now (files w2)
                (sessionFile this (next_uuid w))
                (sessionFile this (next_uuid w'))).
      * rewrite Hfiles2. rewrite lookup_insert_ne by congruence.
        rewrite Hfiles. apply lookup_insert_eq.
      * rewrite Hfiles2. apply lookup_insert_eq.
      * exact Hfile.
      * exact Ls.
      * unfold live, session_object. cbn [expires].
        apply Z.leb_le. exact Lnow.
      * cbn [session_object token]. symmetry. exact Hsame.
    + intros now Hu Hfresh. rewrite Hfiles.
      apply insert_keeps_live_tokens_unique; assumption.
Qed.

Lemma send_persists_unchecked_token_witness :
  let w0 := sample_world 0 PostResolved in
  let w1 := (_sendImpl sample_channel sample_notification w0).2 in
  ~ live_tokens_unique 1000
      (files (_sendImpl sample_channel sample_notification w1).2)
  /\ ~ live_tokens_unique 2000
         (files (_sendImpl sample_channel sample_notification w1).2)
  /\ live_tokens_unique 1000
       (files (_sendImpl sample_channel sample_notification
                 (redrawn one_half w1)).2).
Proof.
  cbv zeta.
  set (w0 := sample_world 0 PostResolved).
  set (w1 := (_sendImpl sample_channel sample_notification w0).2).
  destruct (send_persists_unchecked_token sample_channel sample_notification w0)
    as (_ & _ & H0).
  destruct H0 as (s0 & w0' & Hrun0 & _ & Hfiles0 & _ & Htwo & Hkeep0);
    [reflexivity | reflexivity | reflexivity |].
  assert (Hw1 : w0' = w1) by (unfold w1; rewrite Hrun0; reflexivity).
  subst w0'.
  assert (Hs0 : files w1 !! sessionFile sample_channel (str "a") = Some s0)
    by (rewrite Hfiles0; apply lookup_insert_eq).
  assert (Hs0' : exists r, files w1 !! sessionFile sample_channel (str "a")
                           = Some r
                           /\ token r = str "AAAAAAAA"
                           /\ live 1000 r = true /\ live 2000 r = true)
    by (vm_compute; eexists; repeat split; reflexivity).
  destruct Hs0' as (r & Hr & Htok0 & Hlive0 & Hlive0').
  rewrite Hs0 in Hr. injection Hr as <-.
  assert (Hunique1 : live_tokens_unique 1000 (files w1)).
  { apply Hkeep0; unfold w0; rewrite sample_world_files;
      [apply live_tokens_unique_empty |].
    intros g r Hg. rewrite lookup_empty in Hg. discriminate Hg. }
  split; [| split].
  - apply (Htwo 1000%Z sample_notification).
    + vm_compute. reflexivity.
    + vm_compute. discriminate.
    + vm_compute. reflexivity.
    + exact Hlive0.
    + vm_compute. discriminate.
  - destruct (send_persists_unchecked_token sample_channel
                sample_notification w1) as (_ & _ & H1).
    destruct H1 as (s1 & w1' & Hrun1 & Hgen1 & Hfiles1 & Hcollide & _ & _);
      [reflexivity | reflexivity | vm_compute; reflexivity |].
    assert (Hw : w1' = (_sendImpl sample_channel sample_notification w1).2)
      by (rewrite Hrun1; reflexivity).
    rewrite <- Hw.
    assert (Hdraw1 : (_generateToken w1).1 = Normal (str "AAAAAAAA"))
      by (vm_compute; reflexivity).
    assert (Htok1 : token s1 = str "AAAAAAAA") by congruence.
    assert (Hs1 : files w1' !! sessionFile sample_channel (next_uuid w1)
                  = Some s1)
      by (rewrite Hfiles1; apply lookup_insert_eq).
    assert (Hlive1 : exists r,
               files (_sendImpl sample_channel sample_notification w1).2
                 !! sessionFile sample_channel (next_uuid w1) = Some r
               /\ live 2000 r = true)
      by (vm_compute; eexists; split; reflexivity).
    destruct Hlive1 as (r & Hr & Hlive1).
    rewrite <- Hw, Hs1 in Hr. injection Hr as <-.
    apply (Hcollide 2000%Z (sessionFile sample_channel (str "a")) s0).
    + exact Hs0.
    + vm_compute. discriminate.
    + congruence.
    + exact Hlive0'.
    + exact Hlive1.
  - destruct (send_persists_unchecked_token sample_channel
                sample_notification (redrawn one_half w1)) as (_ & _ & H2).
    destruct H2 as (s2 & w2 & Hrun2 & Hgen2 & _ & _ & _ & Hkeep2);
      [reflexivity | reflexivity | vm_compute; reflexivity |].
    rewrite Hrun2. cbn [snd]. apply Hkeep2; [exact Hunique1 |].
    assert (Hdraw2 : (_generateToken (redrawn one_half w1)).1
                     = Normal (str "SSSSSSSS"))
      by (vm_compute; reflexivity).
    assert (Htok2 : token s2 = str "SSSSSSSS") by congruence.
    intros g r Hg Hlive Heq.
    change (files (redrawn one_half w1)) with (files w1) in Hg.
    rewrite Hfiles0 in Hg.
    destruct (decide (sessionFile sample_channel (next_uuid w0) = g)) as [<- | Hne].
    + rewrite lookup_insert_eq in Hg. injection Hg as <-.
      rewrite Htok0, Htok2 in Heq. vm_compute in Heq. discriminate Heq.
    + rewrite lookup_insert_ne in Hg by exact Hne.
      unfold w0 in Hg. rewrite sample_world_files, lookup_empty in Hg.
      discriminate Hg.
Defined.

(** C1 as stated fails: when the random draws repeat, two sends leave
    two live records with the same token. *)
Lemma repeated_draws_share_live_token :
  let w0 := sample_world 0 PostResolved in
  let w2 := run_op sample_channel (OpSend sample_notification)
              (run_op sample_channel (OpSend sample_notification) w0) in
  live_tokens_unique 1000 (files w0)
  /\ ~ live_tokens_unique 1000 (files w2).
Proof.
  cbv zeta. split.
  - apply live_tokens_unique_empty.
  - intros Hu.
    set (dir := files _) in Hu.
    assert (H1 : exists s1, dir !! sessionFile sample_channel (str "a") = Some s1
                            /\ live 1000 s1 = true
                            /\ token s1 = str "AAAAAAAA")
      by (vm_compute; eexists; repeat split; reflexivity).
    assert (H2 : exists s2, dir !! sessionFile sample_channel (str "aa") = Some s2
                            /\ live 1000 s2 = true
                            /\ token s2 = str "AAAAAAAA")
      by (vm_compute; eexists; repeat split; reflexivity).
    destruct H1 as (s1 & H1 & L1 & T1). destruct H2 as (s2 & H2 & L2 & T2).
    assert (Heq : sessionFile sample_channel (str "a")
                  = sessionFile sample_channel (str "aa"))
      by (apply (Hu _ _ s1 s2 H1 H2 L1 L2); congruence).
    vm_compute in Heq. discriminate Heq.
Qed.

(** No operation rewrites the file of an existing session: after any
    operation, a file other than the one of a session created by that
    very operation holds what it held, or is gone. *)
Lemma run_op_keeps_files (this : SlackChannel) (op : StoreOp) (w : World)
  (f : jsstring) :
  (forall sid, op_creates this op w = Some sid -> f <> sessionFile this sid) ->
  files (run_op this op w) !! f = files w !! f
  \/ files (run_op this op w) !! f = None.
Proof.
  intros Hnew. destruct op as [n | n tok | sid | raw]; cbn [run_op op_creates] in *.
  - destruct (is_set (botToken this)) eqn:Hb;
      [destruct (is_set (channelId this)) eqn:Hc |]; cbn [andb] in Hnew.
    + specialize (Hnew _ eq_refl).
      destruct (sendImpl_run this n w Hb Hc) as (w' & Hrun).
      destruct (tape_next (slack (ambient w)));
        destruct Hrun as (-> & Hfiles & _); cbn [snd]; rewrite Hfiles.
      * left. apply lookup_insert_ne. congruence.
      * rewrite lookup_delete_ne by congruence. left. reflexivity.
    + left. unfold _sendImpl, validateConfig, _validateConfig.
      rewrite Hb, Hc. reflexivity.
    + left. unfold _sendImpl, validateConfig, _validateConfig.
      rewrite Hb. reflexivity.
  - specialize (Hnew _ eq_refl).
    destruct (createSession_run this n tok w) as (a' & Hrun & _).
    cbv zeta in Hrun. rewrite Hrun. world_simpl.
    left. apply lookup_insert_ne. congruence.
  - rewrite removeSession_files.
    destruct (decide (sessionFile this sid = f)) as [<- | Hne].
    + right. apply lookup_delete_eq.
    + left. apply lookup_delete_ne. exact Hne.
  - left. destruct (tokenMatch (trim raw)) as [tok |] eqn:Hm.
    + destruct (command_claude_token this raw w tok Hm)
        as (reply & w' & -> & _ & _ & _ & Hfiles).
      cbn [snd]. rewrite Hfiles. reflexivity.
    + rewrite (command_claude_no_token this raw w Hm). reflexivity.
Qed.

(** C2, as the code has it: [created] is one reading of the clock and
    [expires] is the next reading plus exactly 24 hours (86 400 000 ms);
    the two differ by exactly 24 hours when the two readings agree.  The
    expiry is fixed at creation: no operation changes a persisted
    record, it can only be removed. *)
Theorem createSession_expiry (this : SlackChannel) (n : Notification)
  (tok : jsstring) (w : World) :
  let t1 := tape_next (clock (ambient w)) in
  let t2 := tape_next (tape_advance (clock (ambient w))) in
  (exists sid n' s w',
     _createSession this n tok w = (Normal (sid, n'), w')
     /\ files w' !! sessionFile this sid = Some s
     /\ created s = t1
     /\ expires s = (t2 + 86400000)%Z
     /\ (t1 = t2 -> expires s = (created s + 86400000)%Z))
  /\ forall op w0 f r,
       files w0 !! f = Some r ->
       (forall sid, op_creates this op w0 = Some sid ->
                    f <> sessionFile this sid) ->
       files (run_op this op w0) !! f = Some r
       \/ files (run_op this op w0) !! f = None.
Proof.
  cbv zeta. split.
  - destruct (createSession_run this n tok w) as (a' & Hrun & _).
    cbv zeta in Hrun. eexists _, _, _, _. split; [exact Hrun |].
    world_simpl. split; [apply lookup_insert_eq |].
    cbn [session_object created expires].
    split; [reflexivity |]. split; [reflexivity |].
    intros ->. reflexivity.
  - intros op w0 f r Hf Hnew.
    destruct (run_op_keeps_files this op w0 f Hnew) as [H | H];
      [left; congruence | right; exact H].
Qed.

Lemma createSession_expiry_witness :
  (exists sid n' s w',
     _createSession sample_channel sample_notification (str "AB12CD34")
       (sample_world 0 PostResolved) = (Normal (sid, n'), w')
     /\ files w' !! sessionFile sample_channel sid = Some s
     /\ expires s = (created s + 86400000)%Z)
  /\ forall s,
       files (run_op sample_channel (OpCreate sample_notification (str "AB12CD34"))
                (sample_world 0 PostResolved))
       !! sessionFile sample_channel (str "a") = Some s ->
       let later := run_op sample_channel (OpRemove (str "b"))
                      (run_op sample_channel
                         (OpCreate sample_notification (str "AB12CD34"))
                         (sample_world 0 PostResolved)) in
       files later !! sessionFile sample_channel (str "a") = Some s
       \/ files later !! sessionFile sample_channel (str "a") = None.
Proof.
  destruct (createSession_expiry sample_channel sample_notification
              (str "AB12CD34") (sample_world 0 PostResolved))
    as ((sid & n' & s & w' & Hrun & Hf & _ & _ & Hday) & Hkeep).
  split.
  - exists sid, n', s, w'. split; [exact Hrun |]. split; [exact Hf |].
    apply Hday. reflexivity.
  - intros s0 Hs0. cbv zeta. apply Hkeep; [exact Hs0 |].
    intros sid0 Hsid. discriminate Hsid.
Defined.

(** C2 as stated fails: when the clock advances between the two
    readings, [expires] is not [created] plus 24 hours. *)
Lemma clock_tick_between_readings :
  exists s,
    files (run_op sample_channel (OpCreate sample_notification (str "AB12CD34"))
             (sample_world 1 PostResolved))
    !! sessionFile sample_channel (str "a") = Some s
    /\ expires s <> (created s + 86400000)%Z.
Proof.
  vm_compute. eexists. split; [reflexivity |]. discriminate.
Qed.

End Sessions.

(** ** The definitions at work *)

Section Examples.

Example day_ms_value : day_ms = 86400000%Z.
Proof. reflexivity. Qed.

Example trim_both_ends :
  trim ([9; 32] ++ str "AB12CD34 ls -la" ++ [10; 65279])
  = str "AB12CD34 ls -la".
Proof. vm_compute. reflexivity. Qed.

Example tokenMatch_token :
  tokenMatch (str "AB12CD34 ls -la") = Some (str "AB12CD34").
Proof. vm_compute. reflexivity. Qed.

Example tokenMatch_lowercase : tokenMatch (str "ab12cd34 ls -la") = None.
Proof. vm_compute. reflexivity. Qed.

Example tokenMatch_short : tokenMatch (str "AB12CD3 ls -la") = None.
Proof. vm_compute. reflexivity. Qed.

Example tokenMatch_bare_token : tokenMatch (trim (str "AB12CD34 ")) = None.
Proof. vm_compute. reflexivity. Qed.

Example spec_pattern_single_line :
  matches_spec_pattern (str "AB12CD34   git status") = true.
Proof. vm_compute. reflexivity. Qed.

Example largest_draw_in_unit_interval : unit_interval largest_draw = true.
Proof. vm_compute. reflexivity. Qed.

Example one_is_not_a_draw : unit_interval (Number_of_Z 1) = false.
Proof. vm_compute. reflexivity. Qed.

(** [(1 - 2^-53) * 36] rounds to [36 - 2^-47], below 36. *)
Example largest_draw_times_36 :
  mul largest_draw (Number_of_Z 36)
  = S754_finite false 5066549580791807 (-47).
Proof. vm_compute. reflexivity. Qed.

Example charAt_largest_draw :
  charAt chars (Math_floor (mul largest_draw (Number_of_Z 36))) = str "9".
Proof. vm_compute. reflexivity. Qed.

Example charAt_out_of_range : charAt chars (Number_of_Z 36) = [].
Proof. vm_compute. reflexivity. Qed.

Example token_of_zero_draws :
  (_generateToken (sample_world 0 PostResolved)).1 = Normal (str "AAAAAAAA").
Proof. vm_compute. reflexivity. Qed.

Example token_of_half_draws :
  (_generateToken (redrawn one_half (sample_world 0 PostResolved))).1
  = Normal (str "SSSSSSSS").
Proof. vm_compute. reflexivity. Qed.

Example unconfigured_send_throws :
  (_sendImpl {| botToken := None; channelId := Some (str "C0123");
                sessionsDir := str "/srv/data/sessions" |}
     sample_notification (sample_world 0 PostResolved)).1
  = Throw {| error_message := str "Slack channel not properly configured" |}.
Proof. vm_compute. reflexivity. Qed.

Example sessionFile_of_id :
  sessionFile sample_channel (str "a") = str "/srv/data/sessions/a.json".
Proof. vm_compute. reflexivity. Qed.

Example handler_rejects_bare_token :
  bolt (effects (command_claude sample_channel (str "AB12CD34 ")
                   (sample_world 0 PostResolved)).2)
  = [Ack; Say invalid_format_reply].
Proof. vm_compute. reflexivity. Qed.

Example handler_reports_relay_failure :
  bolt (effects (command_claude sample_channel (str "AB12CD34 ls")
                   (sample_world 0 PostResolved)).2)
  = [Ack; Say ([10060] ++ str " Failed to send command: token not found")].
Proof. vm_compute. reflexivity. Qed.

End Examples.

(** * Further properties *)

(** ** Trimming *)

Section Trimming.

Lemma trimStart_keeps (c : N) (t : jsstring) :
  isTrimmable c = false -> trimStart (c :: t) = c :: t.
Proof. intros H. cbn [trimStart]. rewrite H. reflexivity. Qed.

Lemma trimStart_idempotent (s : jsstring) :
  trimStart (trimStart s) = trimStart s.
Proof.
  destruct (trimStart s) as [| c t] eqn:E; [reflexivity |].
  apply trimStart_keeps. exact (trimStart_head s c t E).
Qed.

Lemma trimStart_snoc (l : jsstring) (c : N) :
  isTrimmable c = false -> trimStart (l ++ [c]) = trimStart l ++ [c].
Proof.
  intros H. induction l as [| d l IH]; cbn [app trimStart].
  - rewrite H. reflexivity.
  - destruct (isTrimmable d); [exact IH | reflexivity].
Qed.

Lemma trimEnd_cons (c : N) (t : jsstring) :
  isTrimmable c = false -> trimEnd (c :: t) = c :: trimEnd t.
Proof.
  intros H. unfold trimEnd. cbn [rev].
  rewrite (trimStart_snoc _ _ H), rev_unit. reflexivity.
Qed.

Lemma trimEnd_idempotent (s : jsstring) : trimEnd (trimEnd s) = trimEnd s.
Proof.
  unfold trimEnd. rewrite rev_involutive, trimStart_idempotent. reflexivity.
Qed.

Lemma trimEnd_snoc (l : jsstring) (c : N) :
  isTrimmable c = false -> trimEnd (l ++ [c]) = l ++ [c].
Proof.
  intros H. unfold trimEnd. rewrite rev_unit, (trimStart_keeps _ _ H).
  cbn [rev]. rewrite rev_involutive. reflexivity.
Qed.

Lemma trim_idempotent (s : jsstring) : trim (trim s) = trim s.
Proof.
  unfold trim. destruct (trimStart s) as [| c t] eqn:E; [reflexivity |].
  pose proof (trimStart_head s c t E) as Hc.
  rewrite (trimEnd_cons c t Hc), (trimStart_keeps _ _ Hc),
    (trimEnd_cons _ _ Hc), trimEnd_idempotent.
  reflexivity.
Qed.

Lemma isTokenChar_not_trimmable (c : N) :
  isTokenChar c = true -> isTrimmable c = false.
Proof.
  unfold isTokenChar, isTrimmable, isWhiteSpace, isLineTerminator.
  rewrite orb_true_iff, !andb_true_iff, !N.leb_le. intros H.
  repeat match goal with
         | |- context [N.eqb c ?k] =>
             destruct (N.eqb_spec c k); [lia |]
         end.
  destruct (N.leb_spec 8192 c); [lia |]. reflexivity.
Qed.

Lemma trimStart_pad (ws s : jsstring) :
  forallb isTrimmable ws = true -> trimStart (ws ++ s) = trimStart s.
Proof.
  induction ws as [| c ws IH]; [reflexivity |]. cbn [forallb app trimStart].
  intros H. apply andb_true_iff in H. destruct H as [-> H]. exact (IH H).
Qed.

Lemma trimEnd_pad (s ws : jsstring) :
  forallb isTrimmable ws = true -> trimEnd (s ++ ws) = trimEnd s.
Proof.
  intros H. unfold trimEnd. rewrite rev_app_distr, trimStart_pad; [reflexivity |].
  rewrite forallb_forall in *. intros c Hc. apply H, in_rev, Hc.
Qed.

(** White space around a text does not show after trimming. *)
Lemma trim_pad (ws1 s ws2 : jsstring) :
  forallb isTrimmable ws1 = true -> forallb isTrimmable ws2 = true ->
  trim (ws1 ++ s ++ ws2) = trim s.
Proof.
  intros H1 H2. unfold trim. rewrite (trimStart_pad ws1 _ H1).
  assert (Hstart : trimEnd (trimStart (s ++ ws2)) = trimEnd (trimStart s ++ ws2)).
  { induction s as [| c s IH]; cbn [app trimStart].
    - rewrite <- (app_nil_r ws2) at 1. rewrite (trimStart_pad ws2 [] H2).
      rewrite <- (app_nil_l ws2) at 1. rewrite (trimEnd_pad [] ws2 H2).
      reflexivity.
    - destruct (isTrimmable c); [exact IH | reflexivity]. }
  rewrite Hstart. apply trimEnd_pad, H2.
Qed.

End Trimming.

(** ** More on the [/claude] handler *)

Section HandlerOutcomes.

Local Arguments str : simpl never.

(** The world after the handler has relayed a command. *)
Lemma command_claude_token_run (this : SlackChannel) (raw : jsstring)
  (w : World) (tok : jsstring) :
  tokenMatch (trim raw) = Some tok ->
  let commandText := substring_from (trim raw) 9 in
  let answer := handler_reply commandText (tape_next (relay (ambient w))) in
  command_claude this raw w
  = (Normal tt,
     with_effects
       {| logged := logged (effects w)
                    ++ (LogInfo,
                        [str "Handling command from Slack: " ++ [34]
                         ++ commandText ++ [34] ++ str " with token " ++ tok])
                       :: answer.2;
          posted := posted (effects w);
          bolt := bolt (effects w) ++ [Ack; Say answer.1];
          relayed := relayed (effects w) ++ [(tok, commandText)] |}
       (with_ambient (advance_relay (ambient w)) w)).
Proof.
  intros Hm. pose proof (command_after_token raw tok Hm) as (_ & _ & Hc).
  pose proof Hm as Hs. apply tokenMatch_Some in Hs.
  destruct Hs as (c & rest & _ & Hl & _ & _).
  rewrite Hl in Hc. cbn [Nat.add] in Hc. cbv zeta.
  unfold command_claude. rewrite Hm, Hl. cbn [Nat.add].
  unfold mbind, JS_bind, ack. cbn beta iota. rewrite Hc. cbn [negb].
  unfold try_catch, handleCommand, mbind, JS_bind, logger, relayCommand,
    say, throw, handler_reply.
  cbn beta iota zeta. world_simpl.
  destruct (tape_next (relay (ambient w))) as [r | e].
  - destruct (success r); [destruct (result_session r) |];
      unfold with_effects, with_ambient, bolt_entry, relay_entry, log_entry;
      cbn [logged posted bolt relayed files effects ambient error_message
           fst snd];
      rewrite <- ?app_assoc; reflexivity.
  - unfold with_effects, with_ambient, bolt_entry, relay_entry, log_entry;
      cbn [logged posted bolt relayed files effects ambient error_message
           fst snd];
      rewrite <- ?app_assoc; reflexivity.
Qed.

End HandlerOutcomes.

Section HandlerProperties.

Local Arguments str : simpl never.



(** X4: white space (and line breaks) before and after the text of the
    command make no difference to what the handler does. *)
Theorem command_claude_ignores_surrounding_space (this : SlackChannel)
  (before raw after : jsstring) (w : World) :
  forallb isTrimmable before = true -> forallb isTrimmable after = true ->
  command_claude this (before ++ raw ++ after) w = command_claude this raw w.
Proof.
  intros Hb Ha. unfold command_claude. rewrite (trim_pad before raw after Hb Ha).
  reflexivity.
Qed.

Lemma command_claude_ignores_surrounding_space_witness :
  command_claude sample_channel ([32; 9] ++ str "AB12CD34 ls" ++ [10; 160])
    (sample_world 0 PostResolved)
  = command_claude sample_channel (str "AB12CD34 ls")
      (sample_world 0 PostResolved).
Proof.
  apply command_claude_ignores_surrounding_space; reflexivity.
Defined.

(** X5: nothing of the trimmed input is lost or altered on the way to
    the relay: the token, one white-space character and the relayed
    command, put together, are the trimmed input (white space that
    follows the first separator stays in the command). *)
Theorem command_claude_splits_input (this : SlackChannel) (raw : jsstring)
  (w : World) (tok : jsstring) :
  tokenMatch (trim raw) = Some tok ->
  exists separator commandText,
    isTrimmable separator = true
    /\ trim raw = tok ++ separator :: commandText
    /\ relayed (effects (command_claude this raw w).2)
       = relayed (effects w) ++ [(tok, commandText)].
Proof.
  intros Hm. pose proof (command_claude_token_run this raw w tok Hm) as Hrun.
  cbv zeta in Hrun. rewrite Hrun. world_simpl.
  apply tokenMatch_Some in Hm. destruct Hm as (c & rest & Heq & Hl & _ & Hc).
  exists c, rest. split; [exact Hc |]. split; [exact Heq |].
  rewrite Heq. unfold substring_from.
  replace 9%nat with (length (tok ++ [c]))
    by (rewrite length_app, Hl; reflexivity).
  replace (tok ++ c :: rest) with ((tok ++ [c]) ++ rest)
    by (rewrite <- app_assoc; reflexivity).
  rewrite drop_app_length. reflexivity.
Qed.

Lemma command_claude_splits_input_witness :
  exists separator commandText,
    isTrimmable separator = true
    /\ trim (str "AB12CD34   ls -la ") = str "AB12CD34" ++ separator :: commandText
    /\ relayed (effects (command_claude sample_channel (str "AB12CD34   ls -la ")
                           (sample_world 0 PostResolved)).2)
       = [(str "AB12CD34", commandText)].
Proof.
  apply (command_claude_splits_input sample_channel (str "AB12CD34   ls -la ")
           (sample_world 0 PostResolved) (str "AB12CD34")).
  vm_compute. reflexivity.
Defined.

(** X6: a token made by [_generateToken] is accepted by the handler.
    When the user sends the token, a space and a command (not empty,
    without white space around it), the handler relays exactly that
    token and that command. *)
Theorem generated_token_is_accepted (this : SlackChannel) (w0 w : World)
  (tok command : jsstring) :
  draws_in_unit_interval w0 ->
  (_generateToken w0).1 = Normal tok ->
  command <> [] -> trim command = command ->
  relayed (effects (command_claude this (tok ++ [32] ++ command) w).2)
  = relayed (effects w) ++ [(tok, command)].
Proof.
  intros Hd Hgen Hne Htrim. rewrite generateToken_run in Hgen. cbn [fst] in Hgen.
  destruct (token_from_shape (tape_at (random (ambient w0)))
              8 (tape_pos (random (ambient w0))) [] Hd)
    as (suffix & Hshape & Hl & Hf).
  rewrite Hshape in Hgen. cbn [app] in Hgen. injection Hgen as ->.
  assert (Htext : trim (tok ++ [32] ++ command) = tok ++ 32 :: command).
  { destruct tok as [| c0 tok']; [discriminate Hl |].
    cbn [forallb] in Hf. apply andb_true_iff in Hf. destruct Hf as [Hc0 _].
    apply isTokenChar_not_trimmable in Hc0.
    destruct (exists_last Hne) as (pre & c & ->).
    pose proof (trim_last _ _ _ Htrim) as Hc.
    unfold trim. cbn [app]. rewrite (trimStart_keeps _ _ Hc0).
    replace (c0 :: tok' ++ 32 :: pre ++ [c])
      with ((c0 :: tok' ++ 32 :: pre) ++ [c])
      by (cbn [app]; rewrite <- app_assoc; reflexivity).
    apply trimEnd_snoc, Hc. }
  assert (Hm : tokenMatch (trim (tok ++ [32] ++ command)) = Some tok).
  { rewrite Htext. apply tokenMatch_Some. exists 32, command. auto. }
  pose proof (command_claude_token_run this _ w tok Hm) as Hrun.
  cbv zeta in Hrun. rewrite Hrun. world_simpl. rewrite Htext.
  unfold substring_from.
  replace 9%nat with (length (tok ++ [32]))
    by (rewrite length_app, Hl; reflexivity).
  replace (tok ++ 32 :: command) with ((tok ++ [32]) ++ command)
    by (rewrite <- app_assoc; reflexivity).
  rewrite drop_app_length. reflexivity.
Qed.

Lemma generated_token_is_accepted_witness :
  relayed (effects (command_claude sample_channel
                      (str "AAAAAAAA" ++ [32] ++ str "git status")
                      (sample_world 0 PostResolved)).2)
  = [(str "AAAAAAAA", str "git status")].
Proof.
  apply (generated_token_is_accepted sample_channel
           (sample_world 0 PostResolved) (sample_world 0 PostResolved)).
  - intros k. vm_compute. reflexivity.
  - vm_compute. reflexivity.
  - discriminate.
  - vm_compute. reflexivity.
Defined.

End HandlerProperties.

(** ** More on the channel *)

Section ChannelProperties.

Local Arguments str : simpl never.

(** A send on an unconfigured channel stops at the check of the
    configuration. *)
Lemma sendImpl_stops_unconfigured (this : SlackChannel) (n : Notification)
  (w : World) :
  is_set (botToken this) && is_set (channelId this) = false ->
  _sendImpl this n w
  = (Throw {| error_message := str "Slack channel not properly configured" |},
     with_effects
       (log_entry LogWarn
          [if is_set (botToken this) then str "Slack Channel ID not found"
           else str "Slack Bot Token not found"]
          (effects w))
       w).
Proof.
  intros H. unfold _sendImpl, validateConfig, _validateConfig.
  destruct (is_set (botToken this)); [cbn [andb] in H; rewrite H |];
    reflexivity.
Qed.

(** X7: a send on a channel without bot token or without channel id
    throws "Slack channel not properly configured" before anything else
    happens: one warning is logged (about the bot token when both are
    missing), no random number is drawn, no session file is written and
    nothing is posted. *)
Theorem sendImpl_unconfigured (this : SlackChannel) (n : Notification)
  (w : World) :
  is_set (botToken this) && is_set (channelId this) = false ->
  exists warning w',
    _sendImpl this n w
    = (Throw {| error_message :=
                  str "Slack channel not properly configured" |}, w')
    /\ warning = (if is_set (botToken this)
                  then str "Slack Channel ID not found"
                  else str "Slack Bot Token not found")
    /\ logged (effects w') = logged (effects w) ++ [(LogWarn, [warning])]
    /\ files w' = files w
    /\ posted (effects w') = posted (effects w)
    /\ ambient w' = ambient w.
Proof.
  intros H. eexists _, _.
  split; [apply (sendImpl_stops_unconfigured this n w H) |].
  world_simpl. auto 10.
Qed.

Lemma sendImpl_unconfigured_witness :
  exists warning w',
    _sendImpl {| botToken := None; channelId := None;
                 sessionsDir := str "/srv/data/sessions" |}
      sample_notification (sample_world 0 PostResolved)
    = (Throw {| error_message :=
                  str "Slack channel not properly configured" |}, w')
    /\ warning = str "Slack Bot Token not found"
    /\ logged (effects w') = [(LogWarn, [warning])]
    /\ files w' = ∅
    /\ posted (effects w') = []
    /\ ambient w' = sample_ambient 0 PostResolved.
Proof.
  apply (sendImpl_unconfigured
           {| botToken := None; channelId := None;
              sessionsDir := str "/srv/data/sessions" |}
           sample_notification (sample_world 0 PostResolved)).
  reflexivity.
Defined.

(** X8: the check at the start of the script does not look at
    SLACK_CHANNEL_ID.  With the three other variables set and the
    channel id missing, the script does not exit and logs nothing, and
    every send on the channel it creates throws the configuration error
    without writing a session or posting. *)
Theorem startup_accepts_missing_channel_id (env : Environment)
  (dir : jsstring) (w : World) :
  is_set (SLACK_BOT_TOKEN env) = true ->
  is_set (SLACK_SIGNING_SECRET env) = true ->
  is_set (SLACK_APP_TOKEN env) = true ->
  is_set (SLACK_CHANNEL_ID env) = false ->
  exists channel,
    startup env dir w = (Normal (Some channel), w)
    /\ forall n w1,
         exists w1',
           _sendImpl channel n w1
           = (Throw {| error_message :=
                         str "Slack channel not properly configured" |}, w1')
           /\ files w1' = files w1
           /\ posted (effects w1') = posted (effects w1)
           /\ ambient w1' = ambient w1.
Proof.
  intros Hb Hs Ha Hc. eexists. split.
  - unfold startup, slackConfig.
    cbn [config_botToken config_signingSecret config_appToken].
    rewrite Hb, Hs, Ha. reflexivity.
  - intros n w1. eexists. split.
    + apply sendImpl_stops_unconfigured.
      cbn [new_SlackChannel slackConfig botToken channelId config_botToken
           config_channelId].
      rewrite Hc. apply andb_false_r.
    + world_simpl. auto.
Qed.

Lemma startup_accepts_missing_channel_id_witness :
  exists channel,
    startup {| SLACK_BOT_TOKEN := Some (str "xoxb-1");
               SLACK_SIGNING_SECRET := Some (str "secret");
               SLACK_CHANNEL_ID := None;
               SLACK_APP_TOKEN := Some (str "xapp-1") |}
      (str "/srv/data/sessions") (sample_world 0 PostResolved)
    = (Normal (Some channel), sample_world 0 PostResolved)
    /\ forall n w1,
         exists w1',
           _sendImpl channel n w1
           = (Throw {| error_message :=
                         str "Slack channel not properly configured" |}, w1')
           /\ files w1' = files w1
           /\ posted (effects w1') = posted (effects w1)
           /\ ambient w1' = ambient w1.
Proof.
  apply startup_accepts_missing_channel_id; reflexivity.
Defined.

(** The world after a send that Slack rejected. *)
Lemma sendImpl_rejected_run (this : SlackChannel) (n : Notification)
  (w : World) (e : Error) :
  is_set (botToken this) = true -> is_set (channelId this) = true ->
  tape_next (slack (ambient w)) = PostRejected e ->
  exists w',
    _sendImpl this n w = (Normal false, w')
    /\ files w' = delete (sessionFile this (next_uuid w)) (files w)
    /\ logged (effects w')
       = logged (effects w)
         ++ [(LogDebug, [str "Session created: " ++ next_uuid w]);
             (LogError, [str "Failed to send Slack message:";
                         error_message e]);
             (LogDebug, [str "Session removed: " ++ next_uuid w])]
    /\ posted (effects w') = posted (effects w)
    /\ bolt (effects w') = bolt (effects w)
    /\ relayed (effects w') = relayed (effects w).
Proof.
  intros Hb Hc Hpost. unfold _sendImpl.
  rewrite (bind_run (validateConfig this) _ w true w)
    by (unfold validateConfig, _validateConfig; rewrite Hb, Hc; reflexivity).
  cbn [negb].
  rewrite (bind_run _generateToken _ w _ _ (generateToken_run w)).
  set (w1 := with_ambient (Nat.iter 8 advance_random (ambient w)) w).
  destruct (createSession_run this n
              (token_from (tape_at (random (ambient w)))
                 (tape_pos (random (ambient w))) 8 []) w1)
    as (a' & Hrun & Hslack & _).
  cbv zeta in Hrun.
  change (next_uuid w1) with (next_uuid w) in *.
  change (files w1) with (files w) in *.
  change (effects w1) with (effects w) in *.
  change (slack (ambient w1)) with (slack (ambient w)) in Hslack.
  rewrite (bind_run _ _ _ _ _ Hrun). cbn [fst snd].
  set (w2 := with_effects _ _) in *.
  assert (Hnext : tape_next (slack (ambient w2)) = PostRejected e)
    by (unfold w2; world_simpl; rewrite Hslack; exact Hpost).
  eexists. split.
  - erewrite try_catch_throw;
      [| apply bind_throw; unfold chat_postMessage; rewrite Hnext;
         reflexivity].
    erewrite bind_run; [| reflexivity].
    erewrite bind_run; [| apply removeSession_run].
    reflexivity.
  - unfold w2. world_simpl. rewrite lookup_insert_eq. world_simpl.
    rewrite delete_insert_eq, <- !app_assoc. auto 10.
Qed.

(** X9: when Slack rejects the post and the new id was not in use, the
    session directory after the send is exactly what it was before; the
    log shows the creation, the error with the message of Slack, and
    the removal. *)
Theorem sendImpl_failure_restores_directory (this : SlackChannel)
  (n : Notification) (w : World) (e : Error) :
  is_set (botToken this) = true -> is_set (channelId this) = true ->
  tape_next (slack (ambient w)) = PostRejected e ->
  files w !! sessionFile this (next_uuid w) = None ->
  exists w',
    _sendImpl this n w = (Normal false, w')
    /\ files w' = files w
    /\ logged (effects w')
       = logged (effects w)
         ++ [(LogDebug, [str "Session created: " ++ next_uuid w]);
             (LogError, [str "Failed to send Slack message:";
                         error_message e]);
             (LogDebug, [str "Session removed: " ++ next_uuid w])].
Proof.
  intros Hb Hc Hpost Hfresh.
  destruct (sendImpl_rejected_run this n w e Hb Hc Hpost)
    as (w' & Hrun & Hfiles & Hlog & _).
  exists w'. split; [exact Hrun |]. split; [| exact Hlog].
  rewrite Hfiles. apply delete_id, Hfresh.
Qed.

Lemma sendImpl_failure_restores_directory_witness :
  exists w',
    _sendImpl sample_channel sample_notification
      (sample_world 0 (PostRejected {| error_message := str "not_in_channel" |}))
    = (Normal false, w')
    /\ files w' = ∅
    /\ logged (effects w')
       = [(LogDebug, [str "Session created: " ++ str "a"]);
          (LogError, [str "Failed to send Slack message:";
                      str "not_in_channel"]);
          (LogDebug, [str "Session removed: " ++ str "a"])].
Proof.
  apply (sendImpl_failure_restores_directory sample_channel
           sample_notification
           (sample_world 0 (PostRejected {| error_message := str "not_in_channel" |}))
           {| error_message := str "not_in_channel" |});
    reflexivity.
Defined.

Lemma quoted_field_length (title : string) (o : option jsstring)
  (limit : nat) :
  (length (quoted_field title o limit) <= length (str title) + 5 + limit)%nat.
Proof.
  unfold quoted_field. destruct o as [text |]; [| cbn [length]; lia].
  destruct (truthy text); [| cbn [length]; lia].
  rewrite !length_app. unfold substring_to.
  pose proof (firstn_le_length limit text) as H1.
  assert (H2 : (length (firstn limit text) <= limit)%nat)
    by (rewrite length_firstn; lia).
  cbn [length]. lia.
Qed.

(** X10: the text posted to Slack is bounded: whatever the lengths of
    the question and of the response in the metadata, the message has at
    most 1666 code units besides the project name and the two copies of
    the token. *)
Theorem generateSlackMessage_length (n : Notification) (tok : jsstring) :
  (length (_generateSlackMessage n tok)
   <= 1666 + length (notification_project n) + 2 * length tok)%nat.
Proof.
  unfold _generateSlackMessage. cbv zeta. rewrite !length_app.
  pose proof (quoted_field_length "*Your Question:*"
                match metadata n with
                | Some md => userQuestion md
                | None => None
                end 500) as Hq.
  pose proof (quoted_field_length "*Claude Response:*"
                match metadata n with
                | Some md => claudeResponse md
                | None => None
                end 1000) as Hr.
  repeat match goal with
         | H : context [length (str ?t)] |- _ =>
             let v := eval vm_compute in (length (str t)) in
             change (length (str t)) with v in H
         | |- context [length (str ?t)] =>
             let v := eval vm_compute in (length (str t)) in
             change (length (str t)) with v
         end.
  destruct (bool_decide (notification_type n = str "completed"));
    repeat match goal with
           | |- context [length (str ?t)] =>
               let v := eval vm_compute in (length (str t)) in
               change (length (str t)) with v
           end;
    cbn [length]; lia.
Qed.

Lemma quoted_field_shown (title : string) (o : option jsstring)
  (limit : nat) :
  (0 < limit)%nat ->
  quoted_field title o limit
  = if truthy (shown_text o limit)
    then str title ++ [10; 62; 32] ++ shown_text o limit ++ [10; 10]
    else [].
Proof.
  intros Hl. unfold quoted_field, shown_text, substring_to.
  destruct o as [text |]; [| reflexivity].
  destruct text as [| c text]; [destruct limit; reflexivity |].
  destruct limit as [| limit]; [lia |]. reflexivity.
Qed.

(** X11: of the metadata, the message shows only the first 500 code
    units of the question and the first 1000 of the response, and an
    empty text is treated like a missing one.  Two notifications with
    the same type and project that agree on these two prefixes give the
    same message, whatever else their metadata and message hold. *)
Theorem generateSlackMessage_shows_prefixes (n1 n2 : Notification)
  (tok : jsstring) :
  notification_type n1 = notification_type n2 ->
  notification_project n1 = notification_project n2 ->
  shown_question n1 = shown_question n2 ->
  shown_response n1 = shown_response n2 ->
  _generateSlackMessage n1 tok = _generateSlackMessage n2 tok.
Proof.
  unfold shown_question, shown_response, _generateSlackMessage.
  intros Ht Hp Hq Hr. cbv zeta.
  rewrite !quoted_field_shown by lia.
  rewrite Ht, Hp, Hq, Hr. reflexivity.
Qed.

Lemma generateSlackMessage_shows_prefixes_witness :
  _generateSlackMessage
    {| notification_type := str "completed";
       notification_project := str "demo";
       message := str "done";
       metadata := Some {| userQuestion := Some (repeat 113 600);
                           claudeResponse := Some [];
                           metadata_tmuxSession := Some (str "work") |} |}
    (str "AB12CD34")
  = _generateSlackMessage
      {| notification_type := str "completed";
         notification_project := str "demo";
         message := str "other";
         metadata := Some {| userQuestion := Some (repeat 113 500);
                             claudeResponse := None;
                             metadata_tmuxSession := None |} |}
      (str "AB12CD34").
Proof.
  apply generateSlackMessage_shows_prefixes; vm_compute; reflexivity.
Defined.

(** [_createSession] asks the monitor only when it fills in metadata. *)
Lemma createSession_monitor (this : SlackChannel) (n : Notification)
  (tok : jsstring) (w : World) :
  monitor (ambient (_createSession this n tok w).2)
  = match current_context (tape_next (tmux (ambient w))), metadata n with
    | Some _, None => tape_advance (monitor (ambient w))
    | _, _ => monitor (ambient w)
    end.
Proof.
  unfold _createSession. unfold mbind at 1, JS_bind at 1, uuidv4.
  unfold mbind at 1, JS_bind at 1. rewrite getCurrentTmuxSession_run.
  world_simpl. cbn [tmux advance_uuid].
  destruct (current_context (tape_next (tmux (ambient w)))) as [name |];
    [destruct (metadata n) as [md |] |]; reflexivity.
Qed.

(** X12: a session that was just created is found under its id with
    the token, the type 'slack' and the project it was created with;
    removing it then succeeds and, when the id was not in use before,
    leaves the session directory exactly as it was before the
    creation. *)
Theorem createSession_then_remove (this : SlackChannel) (n : Notification)
  (tok : jsstring) (w : World) :
  files w !! sessionFile this (next_uuid w) = None ->
  exists sid n' s w1 w2,
    _createSession this n tok w = (Normal (sid, n'), w1)
    /\ files w1 !! sessionFile this sid = Some s
    /\ id s = sid /\ token s = tok /\ type s = str "slack"
    /\ project s = notification_project n
    /\ notification s = n'
    /\ _removeSession this sid w1 = (Normal tt, w2)
    /\ files w2 = files w.
Proof.
  intros Hfresh. destruct (createSession_run this n tok w) as (a' & Hrun & _).
  cbv zeta in Hrun. eexists _, _, _, _, _. split; [exact Hrun |].
  world_simpl. split; [apply lookup_insert_eq |].
  do 3 (split; [reflexivity |]).
  split; [unfold session_object, with_conversation; cbn [project];
          destruct (current_context _); [destruct (metadata n) |];
          reflexivity |].
  split; [reflexivity |].
  split; [apply removeSession_run |].
  world_simpl. rewrite lookup_insert_eq. world_simpl.
  rewrite delete_insert_eq. apply delete_id, Hfresh.
Qed.

Lemma createSession_then_remove_witness :
  exists sid n' s w1 w2,
    _createSession sample_channel sample_notification (str "AB12CD34")
      (sample_world 0 PostResolved) = (Normal (sid, n'), w1)
    /\ files w1 !! sessionFile sample_channel sid = Some s
    /\ id s = sid /\ token s = str "AB12CD34" /\ type s = str "slack"
    /\ project s = str "demo"
    /\ notification s = n'
    /\ _removeSession sample_channel sid w1 = (Normal tt, w2)
    /\ files w2 = ∅.
Proof.
  apply (createSession_then_remove sample_channel sample_notification
           (str "AB12CD34") (sample_world 0 PostResolved)).
  reflexivity.
Defined.

(** X13: metadata that comes with the notification is never replaced.
    When the notification has metadata, [_createSession] leaves the
    notification as it is and does not ask the tmux monitor; the target
    of the session is the tmux session named in the metadata, or
    'default' when the metadata names none, whatever tmux session the
    process itself runs in. *)
Theorem createSession_keeps_metadata (this : SlackChannel) (n : Notification)
  (tok : jsstring) (w : World) (md : Metadata) :
  metadata n = Some md ->
  exists s w',
    _createSession this n tok w = (Normal (next_uuid w, n), w')
    /\ files w' !! sessionFile this (next_uuid w) = Some s
    /\ notification s = n
    /\ tmuxSession s
       = match metadata_tmuxSession md with
         | Some name => if truthy name then name else str "default"
         | None => str "default"
         end
    /\ monitor (ambient w') = monitor (ambient w).
Proof.
  intros Hmd. pose proof (createSession_monitor this n tok w) as Hmon.
  destruct (createSession_run this n tok w) as (a' & Hrun & _).
  cbv zeta in Hrun. rewrite Hrun in Hmon. cbn [snd] in Hmon.
  assert (Hn : with_conversation
                 (current_context (tape_next (tmux (ambient w))))
                 (tape_next (monitor (ambient w))) n = n).
  { unfold with_conversation. rewrite Hmd.
    destruct (current_context _); reflexivity. }
  rewrite Hn in Hrun. eexists _, _. split; [exact Hrun |].
  world_simpl. split; [apply lookup_insert_eq |].
  split; [reflexivity |]. split.
  - unfold session_object, metadata_context, or_else. cbn [tmuxSession].
    rewrite Hmd. reflexivity.
  - cbn [ambient effects files with_effects with_ambient with_files] in Hmon.
    rewrite Hmon, Hmd.
    destruct (current_context _); reflexivity.
Qed.

Lemma createSession_keeps_metadata_witness :
  exists s w',
    _createSession sample_channel question_notification (str "AB12CD34")
      (with_tmux (ExecStdout (str "work" ++ [10])) (sample_world 0 PostResolved))
    = (Normal (str "a", question_notification), w')
    /\ files w' !! sessionFile sample_channel (str "a") = Some s
    /\ tmuxSession s = str "default".
Proof.
  destruct (createSession_keeps_metadata sample_channel question_notification
              (str "AB12CD34")
              (with_tmux (ExecStdout (str "work" ++ [10]))
                 (sample_world 0 PostResolved))
              {| userQuestion := Some (str "why?");
                 claudeResponse := None;
                 metadata_tmuxSession := None |})
    as (s & w' & Hrun & Hf & _ & Ht & _); [reflexivity |].
  exists s, w'. split; [exact Hrun |]. split; [exact Hf |]. exact Ht.
Defined.

(** X14: a notification without metadata, created inside a tmux
    session, is bound to that session.  The target of the record is the
    trimmed output of tmux, and the notification gets metadata naming
    that session, with the question and the response of the monitor,
    each replaced by the message of the notification when it is missing
    or empty. *)
Theorem createSession_fills_metadata (this : SlackChannel) (n : Notification)
  (tok : jsstring) (w : World) (out : jsstring) :
  metadata n = None ->
  tape_next (tmux (ambient w)) = ExecStdout out ->
  trim out <> [] ->
  exists n' s w',
    _createSession this n tok w = (Normal (next_uuid w, n'), w')
    /\ files w' !! sessionFile this (next_uuid w) = Some s
    /\ tmuxSession s = trim out
    /\ notification s = n'
    /\ metadata n'
       = Some {| userQuestion :=
                   Some (or_else (conversation_userQuestion
                                    (tape_next (monitor (ambient w))))
                                 (message n));
                 claudeResponse :=
                   Some (or_else (conversation_claudeResponse
                                    (tape_next (monitor (ambient w))))
                                 (message n));
                 metadata_tmuxSession := Some (trim out) |}
    /\ notification_type n' = notification_type n
    /\ notification_project n' = notification_project n
    /\ message n' = message n.
Proof.
  intros Hmd Hout Hne.
  destruct (createSession_run this n tok w) as (a' & Hrun & _).
  cbv zeta in Hrun. rewrite Hout in Hrun. unfold current_context in Hrun.
  destruct (trim out) as [| c t] eqn:Ht; [congruence |].
  cbn [truthy] in Hrun. unfold with_conversation in Hrun. rewrite Hmd in Hrun.
  eexists _, _, _. split; [exact Hrun |]. world_simpl.
  split; [apply lookup_insert_eq |]. cbn. auto 10.
Qed.

Lemma createSession_fills_metadata_witness :
  exists n' s w',
    _createSession sample_channel sample_notification (str "AB12CD34")
      (with_tmux (ExecStdout (str "work" ++ [10])) (sample_world 0 PostResolved))
    = (Normal (str "a", n'), w')
    /\ files w' !! sessionFile sample_channel (str "a") = Some s
    /\ tmuxSession s = str "work"
    /\ metadata n'
       = Some {| userQuestion := Some (str "done");
                 claudeResponse := Some (str "done");
                 metadata_tmuxSession := Some (str "work") |}.
Proof.
  destruct (createSession_fills_metadata sample_channel sample_notification
              (str "AB12CD34")
              (with_tmux (ExecStdout (str "work" ++ [10]))
                 (sample_world 0 PostResolved))
              (str "work" ++ [10]))
    as (n' & s & w' & Hrun & Hf & Ht & _ & Hmd & _);
    [reflexivity | reflexivity | vm_compute; discriminate |].
  exists n', s, w'. split; [exact Hrun |]. split; [exact Hf |].
  split; [exact Ht |]. exact Hmd.
Defined.

(** X15: removing a session touches nothing but the file of that
    session: every other file is as before, nothing is read from the
    environment, and one line is logged exactly when there was a file to
    remove. *)
Theorem removeSession_frame (this : SlackChannel) (sid : jsstring)
  (w : World) :
  let w' := (_removeSession this sid w).2 in
  (forall f, f <> sessionFile this sid -> files w' !! f = files w !! f)
  /\ ambient w' = ambient w
  /\ posted (effects w') = posted (effects w)
  /\ logged (effects w')
     = logged (effects w)
       ++ match files w !! sessionFile this sid with
          | Some _ => [(LogDebug, [str "Session removed: " ++ sid])]
          | None => []
          end.
Proof.
  cbv zeta. rewrite removeSession_run. cbn [snd].
  destruct (files w !! sessionFile this sid) as [s |] eqn:Hf; world_simpl.
  - split; [| auto].
    intros f Hne. apply lookup_delete_ne. congruence.
  - rewrite app_nil_r. auto.
Qed.

Lemma removeSession_frame_witness :
  files (_removeSession sample_channel (str "a")
           (run_op sample_channel
              (OpCreate sample_notification (str "AB12CD34"))
              (run_op sample_channel
                 (OpCreate sample_notification (str "ZZ99ZZ99"))
                 (sample_world 0 PostResolved)))).2
  !! sessionFile sample_channel (str "aa")
  = files (run_op sample_channel
             (OpCreate sample_notification (str "AB12CD34"))
             (run_op sample_channel
                (OpCreate sample_notification (str "ZZ99ZZ99"))
                (sample_world 0 PostResolved)))
    !! sessionFile sample_channel (str "aa").
Proof.
  apply (removeSession_frame sample_channel (str "a")).
  vm_compute. discriminate.
Defined.

(** X16: the name that the tmux query returns is trimmed: it neither
    starts nor ends with white space or a line break (the newline that
    tmux prints after the name is gone), and trimming it again changes
    nothing. *)
Theorem getCurrentTmuxSession_trimmed (w : World) (name : jsstring) :
  (_getCurrentTmuxSession w).1 = Normal (Some name) ->
  trim name = name
  /\ (forall c rest, name = c :: rest -> isTrimmable c = false)
  /\ (forall rest c, name = rest ++ [c] -> isTrimmable c = false).
Proof.
  rewrite getCurrentTmuxSession_run. cbn [fst]. unfold current_context.
  destruct (tape_next (tmux (ambient w))) as [out | e]; [| discriminate].
  destruct (truthy (trim out)); [| discriminate].
  intros [= <-]. split; [apply trim_idempotent |]. split.
  - intros c rest Heq. unfold trim in Heq.
    destruct (trimStart out) as [| d t] eqn:Hs; [discriminate Heq |].
    pose proof (trimStart_head out d t Hs) as Hd.
    rewrite (trimEnd_cons d t Hd) in Heq. congruence.
  - intros rest c Heq. exact (trim_last out rest c Heq).
Qed.

Lemma getCurrentTmuxSession_trimmed_witness :
  trim (str "work") = str "work".
Proof.
  apply (getCurrentTmuxSession_trimmed
           (with_tmux (ExecStdout (str "work" ++ [10]))
              (sample_world 0 PostResolved))
           (str "work")).
  reflexivity.
Defined.

(** X17: with a clock that does not run backwards between the two
    readings, a new session expires no earlier than 24 hours after its
    creation time, and it is live at every instant up to then. *)
Theorem createSession_live_for_a_day (this : SlackChannel) (n : Notification)
  (tok : jsstring) (w : World) :
  (tape_next (clock (ambient w))
   <= tape_next (tape_advance (clock (ambient w))))%Z ->
  exists sid n' s w',
    _createSession this n tok w = (Normal (sid, n'), w')
    /\ files w' !! sessionFile this sid = Some s
    /\ (created s + 86400000 <= expires s)%Z
    /\ forall now, (now <= created s + 86400000)%Z -> live now s = true.
Proof.
  intros Hclock. destruct (createSession_run this n tok w) as (a' & Hrun & _).
  cbv zeta in Hrun. eexists _, _, _, _. split; [exact Hrun |]. world_simpl.
  split; [apply lookup_insert_eq |].
  unfold live, session_object. cbn [created expires].
  change day_ms with 86400000%Z.
  split; [lia |]. intros now Hnow. apply Z.leb_le. lia.
Qed.

Lemma createSession_live_for_a_day_witness :
  exists sid n' s w',
    _createSession sample_channel sample_notification (str "AB12CD34")
      (sample_world 5 PostResolved) = (Normal (sid, n'), w')
    /\ files w' !! sessionFile sample_channel sid = Some s
    /\ (created s + 86400000 <= expires s)%Z
    /\ forall now, (now <= created s + 86400000)%Z -> live now s = true.
Proof.
  apply createSession_live_for_a_day. vm_compute. discriminate.
Defined.

End ChannelProperties.

(** ** Every token can be drawn *)

Section TokenSpace.

Local Arguments str : simpl never.

(** The draw chosen for a character of [A-Z0-9] makes the generator
    pick that character. *)
Lemma draw_of_char_picks (c : N) :
  isTokenChar c = true ->
  unit_interval (draw_of_char c) = true
  /\ charAt chars
       (Math_floor
          (mul (draw_of_char c) (Number_of_Z (Z.of_nat (length chars)))))
     = [c].
Proof.
  intros Hc.
  assert (Hle : (N.to_nat c < 91)%nat).
  { unfold isTokenChar in Hc.
    rewrite orb_true_iff, !andb_true_iff, !N.leb_le in Hc. lia. }
  rewrite <- (N2Nat.id c) in *. set (k := N.to_nat c) in *. clearbody k.
  revert Hc.
  do 91 (destruct k as [| k];
         [vm_compute; intros H; first [discriminate H | split; reflexivity] |]).
  lia.
Qed.

Lemma token_from_chosen_draws (tok : jsstring) (k pos : nat) (acc : jsstring) :
  forallb isTokenChar tok = true ->
  (pos + k <= length tok)%nat ->
  token_from (fun j => draw_of_char (default 65 (tok !! j))) pos k acc
  = acc ++ firstn k (skipn pos tok).
Proof.
  intros Hf. revert pos acc. induction k as [| k IH]; intros pos acc Hlen.
  - cbn [token_from firstn]. rewrite app_nil_r. reflexivity.
  - cbn [token_from].
    destruct (tok !! pos) as [c |] eqn:Hc;
      [| apply lookup_ge_None in Hc; lia].
    cbn [default from_option Datatypes.id].
    assert (Htc : isTokenChar c = true).
    { rewrite forallb_forall in Hf. apply Hf.
      apply list_elem_of_In, list_elem_of_lookup. eauto. }
    destruct (draw_of_char_picks c Htc) as [_ ->].
    rewrite IH by lia. rewrite (drop_S tok c pos Hc).
    cbn [firstn]. rewrite <- app_assoc. reflexivity.
Qed.

(** X18: the generator can produce every token of the format.  For each
    string of 8 characters of [A-Z0-9] there are draws of [Math.random],
    all in the unit interval, for which [_generateToken] returns exactly
    that string. *)
Theorem every_token_can_be_generated (w : World) (tok : jsstring) :
  length tok = 8%nat -> forallb isTokenChar tok = true ->
  exists draw,
    draws_in_unit_interval (with_draws draw w)
    /\ (_generateToken (with_draws draw w)).1 = Normal tok.
Proof.
  intros Hl Hf. exists (fun j => draw_of_char (default 65 (tok !! j))). split.
  - intros k. unfold with_draws. world_simpl. cbn [random tape_at].
    apply draw_of_char_picks.
    destruct (tok !! k) as [c |] eqn:Hc; [| reflexivity].
    cbn [default from_option Datatypes.id]. rewrite forallb_forall in Hf. apply Hf.
    apply list_elem_of_In, list_elem_of_lookup. eauto.
  - rewrite generateToken_run. cbn [fst]. unfold with_draws. world_simpl.
    cbn [random tape_at tape_pos].
    rewrite (token_from_chosen_draws tok 8 0 [] Hf) by lia.
    cbn [app skipn]. rewrite <- Hl, firstn_all. reflexivity.
Qed.

Lemma every_token_can_be_generated_witness :
  exists draw,
    draws_in_unit_interval (with_draws draw (sample_world 0 PostResolved))
    /\ (_generateToken (with_draws draw (sample_world 0 PostResolved))).1
       = Normal (str "AB12CD34").
Proof.
  apply every_token_can_be_generated; reflexivity.
Defined.

End TokenSpace.

(** ** Inputs that the handler rejects *)

Section Rejections.

Local Arguments str : simpl never.

Lemma trim_token (tok : jsstring) :
  forallb isTokenChar tok = true -> trim tok = tok.
Proof.
  intros Hf. destruct tok as [| c0 tok']; [reflexivity |].
  assert (Hhead : isTrimmable c0 = false).
  { cbn [forallb] in Hf. apply andb_true_iff in Hf.
    apply isTokenChar_not_trimmable, Hf. }
  unfold trim. rewrite (trimStart_keeps _ _ Hhead).
  assert (Hne : c0 :: tok' <> []) by discriminate.
  destruct (exists_last Hne) as (pre & c & Heq). rewrite Heq in *.
  apply trimEnd_snoc, isTokenChar_not_trimmable.
  rewrite forallb_forall in Hf. apply Hf, in_or_app. right. left. reflexivity.
Qed.

(** X19: a token without a command is a format error.  When the input
    is 8 characters of [A-Z0-9] followed by nothing but white space, the
    handler acknowledges, replies with the format error and does not
    call the relay. *)
Theorem command_claude_rejects_bare_token (this : SlackChannel)
  (tok ws : jsstring) (w : World) :
  length tok = 8%nat -> forallb isTokenChar tok = true ->
  forallb isTrimmable ws = true ->
  command_claude this (tok ++ ws) w
  = (Normal tt,
     with_effects
       (bolt_entry (Say invalid_format_reply) (bolt_entry Ack (effects w)))
       w).
Proof.
  intros Hl Hf Hws. apply command_claude_no_token.
  assert (Ht : trim (tok ++ ws) = tok).
  { rewrite <- (trim_token tok Hf) at 2.
    exact (trim_pad [] tok ws eq_refl Hws). }
  rewrite Ht. destruct (tokenMatch tok) as [t |] eqn:Hm; [| reflexivity].
  apply tokenMatch_Some in Hm. destruct Hm as (c & rest & Heq & Hlt & _).
  apply (f_equal (@length N)) in Heq. rewrite length_app in Heq.
  cbn [length] in Heq. lia.
Qed.

Lemma command_claude_rejects_bare_token_witness :
  command_claude sample_channel (str "AB12CD34" ++ [32; 10])
    (sample_world 0 PostResolved)
  = (Normal tt,
     with_effects
       (bolt_entry (Say invalid_format_reply)
          (bolt_entry Ack (effects (sample_world 0 PostResolved))))
       (sample_world 0 PostResolved)).
Proof.
  apply command_claude_rejects_bare_token; reflexivity.
Defined.

(** X20: the token must be followed by white space at once.  When the
    ninth code unit of the trimmed input is not white space (a token of
    nine characters, say, or a token glued to its command), the handler
    replies with the format error and does not call the relay. *)
Theorem command_claude_rejects_glued_token (this : SlackChannel)
  (raw tok : jsstring) (c : N) (rest : jsstring) (w : World) :
  trim raw = tok ++ c :: rest -> length tok = 8%nat ->
  isTrimmable c = false ->
  command_claude this raw w
  = (Normal tt,
     with_effects
       (bolt_entry (Say invalid_format_reply) (bolt_entry Ack (effects w)))
       w).
Proof.
  intros Heq Hl Hc. apply command_claude_no_token.
  destruct (tokenMatch (trim raw)) as [t |] eqn:Hm; [| reflexivity].
  apply tokenMatch_Some in Hm.
  destruct Hm as (c' & rest' & Heq' & Hlt & _ & Hc').
  rewrite Heq in Heq'.
  destruct (app_inj_1 tok t (c :: rest) (c' :: rest')) as [_ Htail];
    [congruence | exact Heq' |].
  injection Htail as -> _. congruence.
Qed.

Lemma command_claude_rejects_glued_token_witness :
  command_claude sample_channel (str "AB12CD345 ls")
    (sample_world 0 PostResolved)
  = (Normal tt,
     with_effects
       (bolt_entry (Say invalid_format_reply)
          (bolt_entry Ack (effects (sample_world 0 PostResolved))))
       (sample_world 0 PostResolved)).
Proof.
  apply (command_claude_rejects_glued_token sample_channel
           (str "AB12CD345 ls") (str "AB12CD34") 53 (str " ls"));
    reflexivity.
Defined.

End Rejections.
